(** * The forecasting-pipeline notebook (Custom_Script/03_Forecasting_Pipeline.ipynb)

    The notebook is a straight-line Python program: it builds configuration
    objects, calls the Azure Machine Learning SDK, inspects the local
    filesystem, parses a text file with pandas and plots.

    Modelling conventions.
    - Instantiating a class ([Experiment(ws, ...)], [ParallelRunConfig(...)],
      [Pipeline(...)], ...) builds the record of the constructor's arguments.
    - Calling a function or method that reaches outside the interpreter (the
      platform service, the local filesystem, the console, the plotting
      back-end, pandas numerics) is an event of a free monad [prog]; a run of
      the program against a handler yields a result and the trace of calls.
    - Python exceptions are the [Raise] results; nothing in the notebook
      catches them.
    - The Python built-ins the notebook computes with ([sorted], indexing,
      [os.path.join], [pathlib.Path]) are Rocq functions. *)

From Stdlib Require Import ZArith List Ascii String Permutation Lia.
From stdpp Require Import base strings gmap list.

Local Open Scope string_scope.
Local Open Scope Z_scope.

(** ** Exceptions and results *)

Inductive exn : Type :=
| IndexError
| KeyError
| TypeError
| ValueError
| FileNotFoundError
| NotADirectoryError
| EmptyDataError
| ParserError
| LibraryError (msg : string).

Inductive result (A : Type) : Type :=
| Ok (a : A)
| Raise (e : exn).
Arguments Ok {A} a.
Arguments Raise {A} e.

Definition is_ok {A} (r : result A) : bool :=
  match r with Ok _ => true | Raise _ => false end.

(** ** Python built-ins *)

Module builtins.

(** [l[i]] on a list: negative indices count from the end. *)
Definition getitem {A} (l : list A) (i : Z) : result A :=
  let n := Z.of_nat (length l) in
  let j := if i <? 0 then i + n else i in
  if (j <? 0) || (n <=? j) then Raise IndexError
  else match nth_error l (Z.to_nat j) with
       | Some x => Ok x
       | None => Raise IndexError
       end.

(** [sorted(l, key=...)] once the keys are computed: a stable sort, so
    elements with equal keys keep their relative order. *)
Fixpoint insert_by {A} (key : A -> Z) (x : A) (l : list A) : list A :=
  match l with
  | [] => [x]
  | y :: l' => if key x <=? key y then x :: y :: l' else y :: insert_by key x l'
  end.

Definition sorted {A} (key : A -> Z) (l : list A) : list A :=
  fold_right (insert_by key) [] l.

End builtins.

(** ** Strings and POSIX paths *)

Fixpoint split_on (c : ascii) (s : string) : list string :=
  match s with
  | EmptyString => [EmptyString]
  | String a s' =>
      if Ascii.eqb a c then EmptyString :: split_on c s'
      else match split_on c s' with
           | [] => [String a EmptyString]
           | w :: ws => String a w :: ws
           end
  end.

Fixpoint str_join (sep : string) (l : list string) : string :=
  match l with
  | [] => ""
  | [x] => x
  | x :: l' => x +:+ sep +:+ str_join sep l'
  end.

Definition startswith_sep (s : string) : bool :=
  match s with String "/" _ => true | _ => false end.

Fixpoint endswith_sep (s : string) : bool :=
  match s with
  | EmptyString => false
  | String c EmptyString => Ascii.eqb c "/"
  | String _ s' => endswith_sep s'
  end.

Fixpoint lstrip_sep (s : string) : string :=
  match s with
  | String "/" s' => lstrip_sep s'
  | _ => s
  end.

Module os.
(** [os.fspath] of an argument that may be [None]. *)
Definition fspath (p : option string) : result string :=
  match p with Some s => Ok s | None => Raise TypeError end.

Module path.
(** [posixpath.join(a, b)]. *)
Definition join (a b : string) : string :=
  if startswith_sep b then b
  else if (String.length a =? 0)%nat || endswith_sep a then a +:+ b
  else a +:+ "/" +:+ b.
End path.
End os.

Module pathlib.

(** A [PurePosixPath]: a root (empty, one slash or two) and the components. *)
Record Path : Type := mkPath { root : string; parts : list string }.

Definition splitroot (s : string) : string * string :=
  if startswith_sep s then
    let stripped := lstrip_sep s in
    if (String.length s - String.length stripped =? 2)%nat
    then ("//", stripped) else ("/", stripped)
  else ("", s).

Definition keep_part (x : string) : bool :=
  negb (String.eqb x "") && negb (String.eqb x ".").

(** [Path(s)]. *)
Definition of_string (s : string) : Path :=
  let '(r, rel) := splitroot s in
  {| root := r; parts := List.filter keep_part (split_on "/" rel) |}.

(** [str(p)], which is also [os.fspath(p)]. *)
Definition to_string (p : Path) : string :=
  let s := root p +:+ str_join "/" (parts p) in
  if (String.length s =? 0)%nat then "." else s.

(** The paths [iterdir] builds from the names of the entries. *)
Definition child (p : Path) (name : string) : Path :=
  {| root := root p; parts := (parts p ++ [name])%list |}.

End pathlib.

(** ** The local filesystem

    A map from canonical path to node.  A directory lists the names of its
    entries in the order in which the operating system enumerates them
    ([os.listdir] and [Path.iterdir] both return that order).  Modification
    times are the floats [os.path.getmtime] returns; every finite double is an
    integer multiple of 2^-1074, so they are integers in that unit. *)

Inductive node : Type :=
| File (content : string) (mtime : Z)
| Dir (names : list string) (mtime : Z).

Definition node_mtime (n : node) : Z :=
  match n with File _ t => t | Dir _ t => t end.

Abbreviation FileSystem := (gmap string node).

(** The node at a path.  A path given as a string is parsed as [pathlib]
    does, so that two spellings with the same components denote the same node
    ([..] and symbolic links are not resolved). *)
Definition canon (p : string) : string := pathlib.to_string (pathlib.of_string p).

Definition stat (fs : FileSystem) (p : pathlib.Path) : option node :=
  fs !! pathlib.to_string p.

Definition listdir (fs : FileSystem) (p : string) : result (list string) :=
  match stat fs (pathlib.of_string p) with
  | Some (Dir names _) => Ok names
  | Some (File _ _) => Raise NotADirectoryError
  | None => Raise FileNotFoundError
  end.

Definition iterdir (fs : FileSystem) (p : pathlib.Path) : result (list pathlib.Path) :=
  match stat fs p with
  | Some (Dir names _) => Ok (map (pathlib.child p) names)
  | Some (File _ _) => Raise NotADirectoryError
  | None => Raise FileNotFoundError
  end.

Definition getmtime (fs : FileSystem) (p : pathlib.Path) : result Z :=
  match stat fs p with
  | Some n => Ok (node_mtime n)
  | None => Raise FileNotFoundError
  end.

Definition read_text (fs : FileSystem) (p : string) : result string :=
  match stat fs (pathlib.of_string p) with
  | Some (File content _) => Ok content
  | Some (Dir _ _) => Raise (LibraryError "IsADirectoryError")
  | None => Raise FileNotFoundError
  end.

(** ** pandas: the part the notebook computes with *)

Module pandas.

Inductive label : Type := LInt (n : nat) | LStr (s : string).

(** A cell read from a field of a text file is kept as the text of that
    field, [CStr s]: which value pandas then gives it (the string itself, the
    number it spells, NaN for an empty field) is decided column by column by
    its dtype inference, which is not modelled.  [CNaN] is the cell of a
    record that has no field in that column.  A Python string, as in
    [df['Store'] == 'Store1001'], is a [CStr] too. *)
Inductive cell : Type :=
| CStr (s : string)
| CNaN
| CDate (year month day : Z).

Record Timestamp : Type :=
  mkTimestamp { year : Z; month : Z; day : Z; time_ns : Z }.

(** [d.date()] *)
Definition date (d : Timestamp) : cell := CDate (year d) (month d) (day d).

Record DataFrame : Type := mkDataFrame { columns : list label; rows : list (list cell) }.

Definition label_eqb (a b : label) : bool :=
  match a, b with
  | LInt n, LInt m => Nat.eqb n m
  | LStr s, LStr t => String.eqb s t
  | _, _ => false
  end.

Definition cell_eqb (a b : cell) : bool :=
  match a, b with
  | CStr s, CStr t => String.eqb s t
  | CDate y m d, CDate y' m' d' => (y =? y') && (m =? m') && (d =? d')
  | _, _ => false
  end.

Definition LF : ascii := "010"%char.

(** The records of a text: its lines, blank ones skipped. *)
Definition records (text : string) : list string :=
  List.filter (fun l => negb (String.eqb l "")) (split_on LF text).

Fixpoint pad (w : nat) (l : list cell) : list cell :=
  match w, l with
  | O, _ => []
  | S w', [] => CNaN :: pad w' []
  | S w', c :: l' => c :: pad w' l'
  end.

Fixpoint parse_rows (sep : ascii) (w : nat) (ls : list string) : result (list (list cell)) :=
  match ls with
  | [] => Ok []
  | l :: ls' =>
      let fields := split_on sep l in
      if (w <? length fields)%nat then Raise ParserError
      else match parse_rows sep w ls' with
           | Ok rs => Ok (pad w (map CStr fields) :: rs)
           | Raise e => Raise e
           end
  end.

(** [pd.read_csv(..., sep=c, header=None)] on the text of the file: the
    first record fixes the number of columns, which are labelled 0, 1, ...; a
    longer record is an error, a shorter one is filled with NaN.  Records end
    at a line feed and fields at the separator, nothing else: this is what
    pandas does on the texts [plain_text] below describes, and on those only
    (pandas also ends a record at a carriage return and reads a separator
    between double quotes as part of the field).  Statements about what is
    read from a file are made for such texts. *)
Definition read_csv_text (sep : ascii) (text : string) : result DataFrame :=
  match records text with
  | [] => Raise EmptyDataError
  | first :: _ =>
      let w := length (split_on sep first) in
      match parse_rows sep w (records text) with
      | Ok rs => Ok {| columns := map LInt (seq 0 w); rows := rs |}
      | Raise e => Raise e
      end
  end.

(** Printable ASCII other than the double quote, the space, and the line
    feed. *)
Definition plain_char (c : ascii) : bool :=
  let n := nat_of_ascii c in
  Ascii.eqb c " " || Ascii.eqb c LF
  || ((33 <=? n)%nat && (n <=? 126)%nat && negb (n =? 34)%nat).

Definition plain_text (text : string) : bool :=
  forallb plain_char (list_ascii_of_string text).

(** [df.columns = names] *)
Definition set_columns (df : DataFrame) (names : list label) : result DataFrame :=
  if (length names =? length (columns df))%nat
  then Ok {| columns := names; rows := rows df |}
  else Raise ValueError.

Fixpoint index_of (l : label) (cols : list label) : option nat :=
  match cols with
  | [] => None
  | c :: cols' => if label_eqb l c then Some O
                  else option_map S (index_of l cols')
  end.

(** [df[l]] *)
Definition getitem (df : DataFrame) (l : label) : result (list cell) :=
  match index_of l (columns df) with
  | Some i => Ok (map (fun r => nth i r CNaN) (rows df))
  | None => Raise KeyError
  end.

Fixpoint set_nth (i : nat) (v : cell) (r : list cell) : list cell :=
  match i, r with
  | O, _ :: r' => v :: r'
  | S i', c :: r' => c :: set_nth i' v r'
  | _, [] => []
  end.

Fixpoint zip_with {A B C} (f : A -> B -> C) (l : list A) (l' : list B) : list C :=
  match l, l' with
  | a :: l, b :: l' => f a b :: zip_with f l l'
  | _, _ => []
  end.

(** [df[l] = values]: an existing column is replaced in place, a new one is
    appended. *)
Definition setitem (df : DataFrame) (l : label) (values : list cell) : result DataFrame :=
  if negb (length values =? length (rows df))%nat then Raise ValueError
  else match index_of l (columns df) with
       | Some i => Ok {| columns := columns df;
                         rows := zip_with (set_nth i) values (rows df) |}
       | None => Ok {| columns := (columns df ++ [l])%list;
                       rows := zip_with (fun v r => (r ++ [v])%list) values (rows df) |}
       end.

(** [df.head()] *)
Definition head (df : DataFrame) : DataFrame :=
  {| columns := columns df; rows := firstn 5 (rows df) |}.

(** [df[df[l] == v]] *)
Definition where_eq (df : DataFrame) (l : label) (v : cell) : result DataFrame :=
  match getitem df l with
  | Ok col =>
      Ok {| columns := columns df;
            rows := map snd (List.filter (fun cr => cell_eqb (fst cr) v)
                                         (combine col (rows df))) |}
  | Raise e => Raise e
  end.

End pandas.

(** ** The objects of the Azure Machine Learning SDK

    Objects the platform hands out and the notebook only passes on are opaque
    handles; objects whose attributes the notebook reads, or which it
    constructs, are records of those attributes. *)

Inductive Dataset : Type := dataset_handle (id : N).
Inductive PipelineRun : Type := run_handle (id : N).
Inductive StepRun : Type := step_run_handle (id : N).
Inductive PortDataReference : Type := port_data_handle (id : N).
Inductive Axes : Type := axes_handle (id : N).

Module Workspace.
Record t : Type := mk {
  name : string; location : string;
  subscription_id : string; resource_group : string }.
End Workspace.

Module Datastore.
Record t : Type := mk {
  name : string; container_name : string;
  account_name : string; account_key : string }.
End Datastore.

Module Experiment.
Record t : Type := mk { workspace : Workspace.t; name : string }.
End Experiment.

Module DatasetConsumptionConfig.
Record t : Type := mk { name : string; dataset : Dataset }.
End DatasetConsumptionConfig.

Module CondaDependencies.
Record t : Type := mk { pip_packages : list string }.
(** [CondaDependencies.create(pip_packages=...)] *)
Definition create (pip_packages : list string) : t := mk pip_packages.
End CondaDependencies.

Module Environment.
(** [python_conda_dependencies] is the attribute [python.conda_dependencies];
    [None] stands for the value the constructor leaves there. *)
Record t : Type := mk {
  name : string;
  python_conda_dependencies : option CondaDependencies.t }.
End Environment.

Module AmlCompute.
Record t : Type := mk { workspace : Workspace.t; name : string }.
End AmlCompute.

Module ParallelRunConfig.
Record t : Type := mk {
  source_directory : string;
  entry_script : string;
  mini_batch_size : string;
  run_invocation_timeout : Z;
  error_threshold : Z;
  output_action : string;
  environment : Environment.t;
  process_count_per_node : Z;
  compute_target : AmlCompute.t;
  node_count : Z }.
End ParallelRunConfig.

Module PipelineData.
Record t : Type := mk { name : string; datastore : Datastore.t }.
End PipelineData.

Module DataReference.
Record t : Type := mk { datastore : Datastore.t }.
End DataReference.

(** An element of an [arguments=] or [inputs=] list. *)
Inductive arg : Type :=
| ArgStr (s : string)
| ArgInt (n : Z)
| ArgPipelineData (d : PipelineData.t)
| ArgDataReference (d : DataReference.t).

Module ParallelRunStep.
Record t : Type := mk {
  name : string;
  parallel_run_config : ParallelRunConfig.t;
  inputs : list DatasetConsumptionConfig.t;
  output : PipelineData.t;
  allow_reuse : bool;
  arguments : list arg }.
End ParallelRunStep.

Module PythonScriptStep.
Record t : Type := mk {
  name : string;
  script_name : string;
  compute_target : AmlCompute.t;
  source_directory : string;
  inputs : list arg;
  allow_reuse : bool;
  arguments : list arg }.
End PythonScriptStep.

Inductive step : Type :=
| StepParallelRun (s : ParallelRunStep.t)
| StepPythonScript (s : PythonScriptStep.t).

Definition step_name (s : step) : string :=
  match s with
  | StepParallelRun s => ParallelRunStep.name s
  | StepPythonScript s => PythonScriptStep.name s
  end.

(** The script a step runs on the compute target. *)
Definition step_script (s : step) : string :=
  match s with
  | StepParallelRun s => ParallelRunConfig.entry_script (ParallelRunStep.parallel_run_config s)
  | StepPythonScript s => PythonScriptStep.script_name s
  end.

Module Pipeline.
Record t : Type := mk { workspace : Workspace.t; steps : list step }.
End Pipeline.

Module RegisterBlobContainer.
(** The keyword arguments of [Datastore.register_azure_blob_container]. *)
Record t : Type := mk {
  workspace : Workspace.t;
  datastore_name : string;
  container_name : string;
  account_name : string;
  account_key : string;
  create_if_not_exists : bool }.
End RegisterBlobContainer.

(** What [print] is given. *)
Inductive pyobj : Type :=
| PyStr (s : string)
| PyPortData (d : PortDataReference).

(** ** Calls that leave the interpreter *)

Inductive pyE : Type -> Type :=
(* azureml *)
| Workspace_from_config : pyE Workspace.t
| Workspace_get_default_datastore (ws : Workspace.t) : pyE Datastore.t
| Dataset_get_by_name (ws : Workspace.t) (name : string) : pyE Dataset
| Datastore_register_azure_blob_container (a : RegisterBlobContainer.t) : pyE Datastore.t
| Experiment_submit (e : Experiment.t) (p : Pipeline.t) (tags : gmap string Z) : pyE PipelineRun
| PipelineRun_find_step_run (r : PipelineRun) (name : string) : pyE (list StepRun)
| StepRun_get_output_data (s : StepRun) (name : string) : pyE PortDataReference
| PortDataReference_download (d : PortDataReference) (local_path : option string)
                             (show_progress overwrite : bool) : pyE unit
(* builtins, os, pathlib *)
| Builtin_print (objects : list pyobj) (sep : string) : pyE unit
| Os_listdir (p : string) : pyE (list string)
| Path_iterdir (p : pathlib.Path) : pyE (list pathlib.Path)
| Os_path_getmtime (p : pathlib.Path) : pyE Z
(* pandas *)
| Pd_read_csv (filepath : string) (sep : ascii) : pyE pandas.DataFrame
| Pd_to_datetime (values : list pandas.cell) : pyE (list pandas.Timestamp)
| Df_groupby_sum_unstack (df : pandas.DataFrame) (by_ : list pandas.label)
                         (col : pandas.label) (level : Z) : pyE pandas.DataFrame
| Df_plot (df : pandas.DataFrame) : pyE Axes
(* seaborn, matplotlib *)
| Sns_violinplot (x y : list pandas.cell) (data : pandas.DataFrame) : pyE Axes
| Axes_set_title (ax : Axes) (title : string) : pyE unit
| Plt_title (s : string) : pyE unit
| Plt_xticks (rotation : Z) : pyE unit
| Plt_legend (loc : string) (labels : option (list pandas.label)) : pyE unit
| Plt_xlabel (s : string) : pyE unit
| Plt_ylabel (s : string) : pyE unit
| Plt_show : pyE unit.

(** The library a call belongs to. *)
Inductive library : Type :=
| azureml | py_builtins | py_os | py_pathlib | lib_pandas | lib_seaborn | lib_matplotlib.

Definition library_of {X} (e : pyE X) : library :=
  match e with
  | Workspace_from_config | Workspace_get_default_datastore _
  | Dataset_get_by_name _ _ | Datastore_register_azure_blob_container _
  | Experiment_submit _ _ _ | PipelineRun_find_step_run _ _
  | StepRun_get_output_data _ _ | PortDataReference_download _ _ _ _ => azureml
  | Builtin_print _ _ => py_builtins
  | Os_listdir _ | Os_path_getmtime _ => py_os
  | Path_iterdir _ => py_pathlib
  | Pd_read_csv _ _ | Pd_to_datetime _ | Df_groupby_sum_unstack _ _ _ _
  | Df_plot _ => lib_pandas
  | Sns_violinplot _ _ _ => lib_seaborn
  | Axes_set_title _ _ | Plt_title _ | Plt_xticks _ | Plt_legend _ _
  | Plt_xlabel _ | Plt_ylabel _ | Plt_show => lib_matplotlib
  end.

(** ** Programs *)

Inductive prog (R : Type) : Type :=
| Ret (r : R)
| Throw (e : exn)
| Vis {X : Type} (e : pyE X) (k : X -> prog R).
Arguments Ret {R} r.
Arguments Throw {R} e.
Arguments Vis {R X} e k.

Fixpoint bind {A B} (p : prog A) (f : A -> prog B) : prog B :=
  match p with
  | Ret a => f a
  | Throw e => Throw e
  | Vis e k => Vis e (fun x => bind (k x) f)
  end.

Definition call {X} (e : pyE X) : prog X := Vis e Ret.

Definition lift {A} (r : result A) : prog A :=
  match r with Ok a => Ret a | Raise e => Throw e end.

Notation "x <- c ;; k" := (bind c (fun x => k))
  (at level 100, c at next level, right associativity).
Notation "c ;;; k" := (bind c (fun _ => k))
  (at level 100, right associativity).

(** [[f(x) for x in l]] for an [f] that makes calls. *)
Fixpoint for_each {A B} (f : A -> prog B) (l : list A) : prog (list B) :=
  match l with
  | [] => Ret []
  | a :: l' => b <- f a ;; bs <- for_each f l' ;; Ret (b :: bs)
  end.

(** One call of a run: what was called and what came back. *)
Inductive entry : Type :=
| Entry {X : Type} (e : pyE X) (r : result X).

Definition entry_library (c : entry) : library :=
  match c with Entry e _ => library_of e end.

Definition entry_raised (c : entry) : option exn :=
  match c with Entry _ (Raise ex) => Some ex | Entry _ (Ok _) => None end.

Definition handler (S : Type) : Type := forall X, pyE X -> S -> result X * S.

(** Running a program: a call that raises, or a [Throw], ends the run. *)
Fixpoint exec {S R} (h : handler S) (p : prog R) (s : S) : result R * list entry * S :=
  match p with
  | Ret r => (Ok r, [], s)
  | Throw ex => (Raise ex, [], s)
  | Vis e k =>
      match h _ e s with
      | (Ok x, s') =>
          let '(res, tr, s'') := exec h (k x) s' in (res, Entry e (Ok x) :: tr, s'')
      | (Raise ex, s') => (Raise ex, [Entry e (Raise ex)], s')
      end
  end.

Definition outcome {S R} (h : handler S) (p : prog R) (s : S) : result R := fst (fst (exec h p s)).
Definition trace {S R} (h : handler S) (p : prog R) (s : S) : list entry := snd (fst (exec h p s)).
Definition final {S R} (h : handler S) (p : prog R) (s : S) : S := snd (exec h p s).

(** The interpreter's world: the state of everything outside (of type [C],
    left open) and the local filesystem.  Console output, [os], [pathlib] and
    [pd.read_csv] act on the filesystem as modelled above; every other call
    is answered by [outside], about which nothing is assumed: it may return
    anything, raise, and change the filesystem. *)
Definition world {C} (outside : handler (C * FileSystem)) : handler (C * FileSystem) :=
  fun X e s =>
    match e in pyE X return result X * (C * FileSystem) with
    | Builtin_print _ _ => (Ok tt, s)
    | Os_listdir p => (listdir (snd s) p, s)
    | Path_iterdir p => (iterdir (snd s) p, s)
    | Os_path_getmtime p => (getmtime (snd s) p, s)
    | Pd_read_csv f sep =>
        (match read_text (snd s) f with
         | Ok text => pandas.read_csv_text sep text
         | Raise ex => Raise ex
         end, s)
    | e' => outside _ e' s
    end.

(** ** The notebook *)

Module nb.
Import pandas.

(** *** 4.1 - 4.3 *)
Definition forecast_conda_deps : CondaDependencies.t :=
  CondaDependencies.create ["sklearn"; "joblib"].

Definition forecast_env : Environment.t :=
  let forecast_env := Environment.mk "many_models_environment" None in
  Environment.mk (Environment.name forecast_env) (Some forecast_conda_deps).

Definition compute (ws : Workspace.t) : AmlCompute.t := AmlCompute.mk ws "cpucluster".

Definition process_count_per_node : Z := 8.
Definition node_count : Z := 5.
Definition timeout : Z := 180.

Definition tags : gmap string Z :=
  <["timeout" := timeout]>
    (<["process_count_per_node" := process_count_per_node]>
       (<["node_count" := node_count]> ∅)).

Definition parallel_run_config (ws : Workspace.t) : ParallelRunConfig.t :=
  {| ParallelRunConfig.source_directory := "./scripts";
     ParallelRunConfig.entry_script := "forecast.py";
     ParallelRunConfig.mini_batch_size := "1";
     ParallelRunConfig.run_invocation_timeout := timeout;
     ParallelRunConfig.error_threshold := 10;
     ParallelRunConfig.output_action := "append_row";
     ParallelRunConfig.environment := forecast_env;
     ParallelRunConfig.process_count_per_node := process_count_per_node;
     ParallelRunConfig.compute_target := compute ws;
     ParallelRunConfig.node_count := node_count |}.

(** *** 4.4 *)
Definition output_dir (dstore : Datastore.t) : PipelineData.t :=
  PipelineData.mk "forecasting_output" dstore.

Definition parallel_run_step (ws : Workspace.t) (dstore : Datastore.t)
    (small_dataset_input : DatasetConsumptionConfig.t) : ParallelRunStep.t :=
  {| ParallelRunStep.name := "many-models-forecasting";
     ParallelRunStep.parallel_run_config := parallel_run_config ws;
     ParallelRunStep.inputs := [small_dataset_input];
     ParallelRunStep.output := output_dir dstore;
     ParallelRunStep.allow_reuse := false;
     ParallelRunStep.arguments :=
       [ArgStr "--forecast_horizon"; ArgInt 8;
        ArgStr "--starting_date"; ArgStr "1992-10-01";
        ArgStr "--target_column"; ArgStr "Quantity";
        ArgStr "--timestamp_column"; ArgStr "WeekStarting";
        ArgStr "--model_type"; ArgStr "lr";
        ArgStr "--date_freq"; ArgStr "W-THU"] |}.

(** *** 5.1 *)
Definition register_predictions (ws : Workspace.t) (dstore : Datastore.t)
  : RegisterBlobContainer.t :=
  {| RegisterBlobContainer.workspace := ws;
     RegisterBlobContainer.datastore_name := "predictions";
     RegisterBlobContainer.container_name := "predictions";
     RegisterBlobContainer.account_name := Datastore.account_name dstore;
     RegisterBlobContainer.account_key := Datastore.account_key dstore;
     RegisterBlobContainer.create_if_not_exists := true |}.

(** *** 5.2 *)
Definition upload_predictions_step (ws : Workspace.t) (dstore : Datastore.t)
    (output_dref : DataReference.t) : PythonScriptStep.t :=
  {| PythonScriptStep.name := "copy_predictions";
     PythonScriptStep.script_name := "copy_predictions.py";
     PythonScriptStep.compute_target := compute ws;
     PythonScriptStep.source_directory := "./scripts";
     PythonScriptStep.inputs :=
       [ArgDataReference output_dref; ArgPipelineData (output_dir dstore)];
     PythonScriptStep.allow_reuse := false;
     PythonScriptStep.arguments :=
       [ArgStr "--parallel_run_step_output"; ArgPipelineData (output_dir dstore);
        ArgStr "--output_dir"; ArgDataReference output_dref] |}.

(** *** 6.0 *)
Definition pipeline (ws : Workspace.t) (dstore : Datastore.t)
    (small_dataset_input : DatasetConsumptionConfig.t)
    (output_dref : DataReference.t) : Pipeline.t :=
  Pipeline.mk ws
    [StepParallelRun (parallel_run_step ws dstore small_dataset_input);
     StepPythonScript (upload_predictions_step ws dstore output_dref)].

(** Cells 1.0 to 6.0, in the order of the notebook. *)
Definition submit_pipeline : prog PipelineRun :=
  ws <- call Workspace_from_config ;;
  dstore <- call (Workspace_get_default_datastore ws) ;;
  call (Builtin_print [PyStr ("Workspace Name: " +:+ Workspace.name ws);
               PyStr ("Azure Region: " +:+ Workspace.location ws);
               PyStr ("Subscription Id: " +:+ Workspace.subscription_id ws);
               PyStr ("Resource Group: " +:+ Workspace.resource_group ws)]
              (String LF "")) ;;;
  let experiment := Experiment.mk ws "forecasting_pipeline" in
  small_dataset <- call (Dataset_get_by_name ws "oj_data_small") ;;
  let small_dataset_input :=
    DatasetConsumptionConfig.mk "forecast_10_models" small_dataset in
  output_dstore <-
    call (Datastore_register_azure_blob_container (register_predictions ws dstore)) ;;
  let output_dref := DataReference.mk output_dstore in
  call (Experiment_submit experiment
          (pipeline ws dstore small_dataset_input output_dref) tags).

(** *** 7.1 *)
Definition download_predictions (run : PipelineRun) (target_dir : option string)
  : prog string :=
  step_runs <- call (PipelineRun_find_step_run run "many-models-forecasting") ;;
  stitch_run <- lift (builtins.getitem step_runs 0) ;;
  port_data <- call (StepRun_get_output_data stitch_run "forecasting_output") ;;
  call (Builtin_print [PyPortData port_data] " ") ;;;
  call (PortDataReference_download port_data target_dir true true) ;;;
  dir <- lift (os.fspath target_dir) ;;
  names <- call (Os_listdir (os.path.join dir "azureml")) ;;
  step_hash <- lift (builtins.getitem names 0) ;;
  entries <- call (Path_iterdir (pathlib.of_string (os.path.join dir "azureml"))) ;;
  keyed <- for_each (fun p => t <- call (Os_path_getmtime p) ;; Ret (t, p)) entries ;;
  let latest := map snd (builtins.sorted fst keyed) in
  last <- lift (builtins.getitem latest (-1)) ;;
  Ret (os.path.join (pathlib.to_string last) "forecasting_output").

(** *** 7.2 *)
Definition prediction_columns : list label :=
  [LStr "WeekStarting"; LStr "Predictions"; LStr "Store"; LStr "Brand"].

Definition read_predictions (file_path : string) : prog DataFrame :=
  df <- call (Pd_read_csv (file_path +:+ "/parallel_run_step.txt") " ") ;;
  df <- lift (set_columns df prediction_columns) ;;
  week_starting <- lift (getitem df (LStr "WeekStarting")) ;;
  stamps <- call (Pd_to_datetime week_starting) ;;
  df <- lift (setitem df (LStr "WeekStarting") (map date stamps)) ;;
  let shown := head df in
  Ret df.

(** *** 7.3 *)
Definition plot_by_brand (df : DataFrame) : prog unit :=
  x <- lift (getitem df (LStr "Brand")) ;;
  y <- lift (getitem df (LStr "Predictions")) ;;
  fig <- call (Sns_violinplot x y df) ;;
  call (Axes_set_title fig "Predictions by Brand").

Definition plot_over_time (df : DataFrame) : prog unit :=
  week <- call (Df_groupby_sum_unstack df [LStr "WeekStarting"; LStr "Brand"]
                                       (LStr "Predictions") 1) ;;
  call (Df_plot week) ;;;
  call (Plt_title "Total Predictions by Brand") ;;;
  call (Plt_xticks 40) ;;;
  call (Plt_legend "upper right" None) ;;;
  call (Plt_xlabel "Week") ;;;
  call (Plt_ylabel "Total Predictions") ;;;
  call Plt_show.

Definition plot_store (df : DataFrame) : prog unit :=
  let store := "Store1001" in
  df_1001 <- lift (where_eq df (LStr "Store") (CStr store)) ;;
  brands <- call (Df_groupby_sum_unstack df_1001 [LStr "WeekStarting"; LStr "Brand"]
                                         (LStr "Predictions") 1) ;;
  call (Df_plot brands) ;;;
  call (Plt_legend "upper right" (Some (columns brands))) ;;;
  call (Plt_xticks 40) ;;;
  call (Plt_title "Predictions for Store 1001") ;;;
  call (Plt_xlabel "Week") ;;;
  call (Plt_ylabel "Predicted Quantity") ;;;
  call Plt_show.

(** Cells 7.1 to 7.3 for the submitted run. *)
Definition view_results (run : PipelineRun) : prog unit :=
  file_path <- download_predictions run (Some "output") ;;
  df <- read_predictions file_path ;;
  plot_by_brand df ;;;
  plot_over_time df ;;;
  plot_store df.

(** The whole notebook (the cells of section 8.0 are commented out). *)
Definition notebook : prog unit :=
  run <- submit_pipeline ;;
  view_results run.

End nb.

(** ** A sample platform

    One possible behaviour of the outside, used to run the notebook on
    concrete inputs. *)

Module Sample.
Import pandas.

Definition ws : Workspace.t := Workspace.mk "forecast-ws" "westus2" "0000-0001" "forecast-rg".
Definition dstore : Datastore.t :=
  Datastore.mk "workspaceblobstore" "azureml-blobstore-1" "forecaststorage" "c2VjcmV0".
Definition predictions_dstore : Datastore.t :=
  Datastore.mk "predictions" "predictions" "forecaststorage" "c2VjcmV0".

Definition prediction_text : string :=
  "1992-10-01 9123.5 Store1001 tropicana" +:+ String LF
  ("1992-10-08 8740.25 Store1001 dominicks" +:+ String LF
  ("1992-10-01 10011.0 Store1002 tropicana" +:+ String LF "")).

(** Predictions for one week, and a filesystem holding them under [out].
    [outside] below answers [pd.to_datetime] with 1 October 1992 throughout,
    which is right for the first fields of this text. *)
Definition same_week_text : string :=
  "1992-10-01 9123.5 Store1001 tropicana" +:+ String LF
  ("1992-10-01 8740.25 Store1001 dominicks" +:+ String LF
  ("1992-10-01 10011.0 Store1002 tropicana" +:+ String LF "")).

Definition same_week : unit * FileSystem :=
  (tt, {["out/parallel_run_step.txt" := File same_week_text 1]}).

(** What a download of the output of run [hash] at time [t] leaves under
    [dir]. *)
Definition downloaded (hash : string) (t : Z) (text : string)
    (dir : string) (fs : FileSystem) : FileSystem :=
  let az := canon (os.path.join dir "azureml") in
  let run_dir := os.path.join az hash in
  let out := os.path.join run_dir "forecasting_output" in
  let existing := match fs !! az with Some (Dir names _) => names | _ => [] end in
  <[az := Dir (existing ++ [hash])%list t]>
    (<[run_dir := Dir ["forecasting_output"] t]>
       (<[out := Dir ["parallel_run_step.txt"] t]>
          (<[os.path.join out "parallel_run_step.txt" := File text t]> fs))).

(** A platform whose run has the step runs [steps] and whose download acts
    on the filesystem as [dl].  The last four cases are never asked: [world]
    answers those calls itself. *)
Definition outside (steps : list StepRun) (dl : option string -> FileSystem -> FileSystem)
  : handler (unit * FileSystem) :=
  fun X e s =>
    match e in pyE X return result X * (unit * FileSystem) with
    | Workspace_from_config => (Ok ws, s)
    | Workspace_get_default_datastore _ => (Ok dstore, s)
    | Dataset_get_by_name _ _ => (Ok (dataset_handle 1), s)
    | Datastore_register_azure_blob_container _ => (Ok predictions_dstore, s)
    | Experiment_submit _ _ _ => (Ok (run_handle 1), s)
    | PipelineRun_find_step_run _ _ => (Ok steps, s)
    | StepRun_get_output_data _ _ => (Ok (port_data_handle 1), s)
    | PortDataReference_download _ target _ _ => (Ok tt, (fst s, dl target (snd s)))
    | Pd_to_datetime values => (Ok (map (fun _ => mkTimestamp 1992 10 1 0) values), s)
    | Df_groupby_sum_unstack df _ _ _ => (Ok df, s)
    | Df_plot _ => (Ok (axes_handle 2), s)
    | Sns_violinplot _ _ _ => (Ok (axes_handle 1), s)
    | Axes_set_title _ _ | Plt_title _ | Plt_xticks _ | Plt_legend _ _
    | Plt_xlabel _ | Plt_ylabel _ | Plt_show => (Ok tt, s)
    | Builtin_print _ _ => (Ok tt, s)
    | Os_listdir _ => (Raise FileNotFoundError, s)
    | Path_iterdir _ => (Raise FileNotFoundError, s)
    | Os_path_getmtime _ => (Raise FileNotFoundError, s)
    | Pd_read_csv _ _ => (Raise FileNotFoundError, s)
    end.

Definition download_here (target : option string) (fs : FileSystem) : FileSystem :=
  match target with
  | Some dir => downloaded "run-0001" 1700 prediction_text dir fs
  | None => fs
  end.

(** The platform on which everything succeeds. *)
Definition healthy : handler (unit * FileSystem) :=
  world (outside [step_run_handle 1] download_here).

Definition start : unit * FileSystem := (tt, ∅).

(** A run whose step has an output without any file: the download writes
    nothing. *)
Definition empty_output : handler (unit * FileSystem) :=
  world (outside [step_run_handle 1] (fun _ fs => fs)).

(** A run without the forecasting step. *)
Definition no_step : handler (unit * FileSystem) :=
  world (outside [] download_here).

(** [output/azureml] holding the downloads of two runs, enumerated in the
    order [names], with modification times [ta] and [tb]. *)
Definition two_runs (names : list string) (ta tb : Z) : FileSystem :=
  <["output/azureml" := Dir names 7]>
    (<["output/azureml/run-a" := Dir ["forecasting_output"] ta]>
       (<["output/azureml/run-b" := Dir ["forecasting_output"] tb]> ∅)).

(** A platform after whose download the filesystem is [fs]. *)
Definition leaving (fs : FileSystem) : handler (unit * FileSystem) :=
  world (outside [step_run_handle 1] (fun _ _ => fs)).

End Sample.

(** ** What a trace says *)

Definition submission (c : entry) : option (Experiment.t * Pipeline.t * gmap string Z) :=
  match c with
  | Entry e _ =>
      match e with
      | Experiment_submit ex p t => Some (ex, p, t)
      | _ => None
      end
  end.

Definition registration (c : entry) : option RegisterBlobContainer.t :=
  match c with
  | Entry e _ =>
      match e with
      | Datastore_register_azure_blob_container a => Some a
      | _ => None
      end
  end.

(** The default datastore a workspace lookup answered with. *)
Definition default_datastore (c : entry) : option (Workspace.t * Datastore.t) :=
  match c with
  | Entry e r =>
      match e in pyE X return result X -> option (Workspace.t * Datastore.t) with
      | Workspace_get_default_datastore ws =>
          fun r => match r with Ok d => Some (ws, d) | Raise _ => None end
      | _ => fun _ => None
      end r
  end.

Definition download (c : entry) : option (PortDataReference * option string) :=
  match c with
  | Entry e _ =>
      match e with
      | PortDataReference_download d target _ _ => Some (d, target)
      | _ => None
      end
  end.

Definition submissions (tr : list entry) := omap submission tr.
Definition registrations (tr : list entry) := omap registration tr.
Definition default_datastores (tr : list entry) := omap default_datastore tr.
Definition downloads (tr : list entry) := omap download tr.

Definition parallel_run_configs (p : Pipeline.t) : list ParallelRunConfig.t :=
  omap (fun st => match st with
                  | StepParallelRun s => Some (ParallelRunStep.parallel_run_config s)
                  | StepPythonScript _ => None
                  end) (Pipeline.steps p).

(** The calls to the platform's client library, by name. *)
Inductive sdk_call : Type :=
| from_config | get_default_datastore | get_by_name | register_azure_blob_container
| submit | find_step_run | get_output_data | download_call.

Definition sdk_call_of {X} (e : pyE X) : option sdk_call :=
  match e with
  | Workspace_from_config => Some from_config
  | Workspace_get_default_datastore _ => Some get_default_datastore
  | Dataset_get_by_name _ _ => Some get_by_name
  | Datastore_register_azure_blob_container _ => Some register_azure_blob_container
  | Experiment_submit _ _ _ => Some submit
  | PipelineRun_find_step_run _ _ => Some find_step_run
  | StepRun_get_output_data _ _ => Some get_output_data
  | PortDataReference_download _ _ _ _ => Some download_call
  | _ => None
  end.

Definition sdk_calls (tr : list entry) : list sdk_call :=
  omap (fun c => match c with Entry e _ => sdk_call_of e end) tr.

(** The kinds of operation the specification lists. *)
Inductive operation_kind : Type :=
| workspace_lookup | datastore_registration | environment_definition
| parallel_run_configuration | pipeline_submission | run_output_download
| dataframe_plotting.

Definition kind_of {X} (e : pyE X) : option operation_kind :=
  match e with
  | Workspace_from_config | Workspace_get_default_datastore _
  | Dataset_get_by_name _ _ => Some workspace_lookup
  | Datastore_register_azure_blob_container _ => Some datastore_registration
  | Experiment_submit _ _ _ => Some pipeline_submission
  | PipelineRun_find_step_run _ _ | StepRun_get_output_data _ _
  | PortDataReference_download _ _ _ _ => Some run_output_download
  | Df_groupby_sum_unstack _ _ _ _ | Df_plot _ | Sns_violinplot _ _ _
  | Axes_set_title _ _ | Plt_title _ | Plt_xticks _ | Plt_legend _ _
  | Plt_xlabel _ | Plt_ylabel _ | Plt_show => Some dataframe_plotting
  | Builtin_print _ _ | Os_listdir _ | Path_iterdir _ | Os_path_getmtime _
  | Pd_read_csv _ _ | Pd_to_datetime _ => None
  end.

(** A program all of whose calls, on every path, satisfy [Q]. *)
Inductive calls_only (Q : forall X, pyE X -> bool) {R} : prog R -> Prop :=
| calls_only_Ret r : calls_only Q (Ret r)
| calls_only_Throw ex : calls_only Q (Throw ex)
| calls_only_Vis X (e : pyE X) k :
    Q X e = true -> (forall x, calls_only Q (k x)) -> calls_only Q (Vis e k).

Definition entry_sat (Q : forall X, pyE X -> bool) (c : entry) : bool :=
  match c with Entry e _ => Q _ e end.

(** ** The steps of [download_predictions] that follow the download

    Lines 327 to 329 read the local filesystem only; as a function of it: *)

Fixpoint stat_each (fs : FileSystem) (l : list pathlib.Path) : result (list (Z * pathlib.Path)) :=
  match l with
  | [] => Ok []
  | p :: l' =>
      match getmtime fs p with
      | Ok t => match stat_each fs l' with
                | Ok kl => Ok ((t, p) :: kl)
                | Raise ex => Raise ex
                end
      | Raise ex => Raise ex
      end
  end.

Definition latest_output (fs : FileSystem) (dir : string) : result string :=
  match listdir fs (os.path.join dir "azureml") with
  | Raise ex => Raise ex
  | Ok names =>
      match builtins.getitem names 0 with
      | Raise ex => Raise ex
      | Ok _ =>
          match iterdir fs (pathlib.of_string (os.path.join dir "azureml")) with
          | Raise ex => Raise ex
          | Ok entries =>
              match stat_each fs entries with
              | Raise ex => Raise ex
              | Ok keyed =>
                  match builtins.getitem (map snd (builtins.sorted fst keyed)) (-1) with
                  | Raise ex => Raise ex
                  | Ok last => Ok (os.path.join (pathlib.to_string last) "forecasting_output")
                  end
              end
          end
      end
  end.

(** The entries of [dir/azureml] as [iterdir] yields them, and the
    modification time of one. *)
Definition entries_of (dir : string) (names : list string) : list pathlib.Path :=
  map (pathlib.child (pathlib.of_string (os.path.join dir "azureml"))) names.

Definition mtime_of (fs : FileSystem) (p : pathlib.Path) : Z :=
  match getmtime fs p with Ok t => t | Raise _ => 0 end.

(** The platform part of [download_predictions run (Some dir)] goes through
    from world [s] and leaves the world in [s3]: the run has a step run of
    that name, the first one has the output, and its download completes. *)
Definition downloads_to {C} (outside : handler (C * FileSystem))
    (s : C * FileSystem) (run : PipelineRun) (dir : string)
    (port_data : PortDataReference) (s3 : C * FileSystem) : Prop :=
  exists stitch_run others s1 s2,
    outside _ (PipelineRun_find_step_run run "many-models-forecasting") s
      = (Ok (stitch_run :: others), s1) /\
    outside _ (StepRun_get_output_data stitch_run "forecasting_output") s1
      = (Ok port_data, s2) /\
    outside _ (PortDataReference_download port_data (Some dir) true true) s2
      = (Ok tt, s3).



(** ** Notions used in the statements *)

(** The last element of an ascending list, if there is one, has the
    greatest key. *)
Definition ascending {A} (key : A -> Z) (l : list A) : Prop :=
  forall z, last l = Some z -> Forall (fun y => key y <= key z) l.

(** Calls into [os] and [pathlib]. *)
Definition local_call (c : entry) : bool :=
  match entry_library c with
  | py_os | py_pathlib => true
  | _ => false
  end.

(** Calls that may follow the submission of the pipeline. *)
Definition after_submit (X : Type) (e : pyE X) : bool :=
  match sdk_call_of e with
  | Some from_config | Some get_default_datastore | Some get_by_name
  | Some register_azure_blob_container | Some submit => false
  | _ => true
  end.

(** Calls that do not go to the platform's client library. *)
Definition not_sdk (X : Type) (e : pyE X) : bool :=
  match sdk_call_of e with Some _ => false | None => true end.

(** A pipeline of exactly two steps: the forecasting step, then the copy. *)
Definition forecasting_then_copy (p : Pipeline.t) : Prop :=
  exists f c,
    Pipeline.steps p = [StepParallelRun f; StepPythonScript c] /\
    ParallelRunStep.name f = "many-models-forecasting" /\
    ParallelRunConfig.entry_script (ParallelRunStep.parallel_run_config f) = "forecast.py" /\
    PythonScriptStep.name c = "copy_predictions" /\
    PythonScriptStep.script_name c = "copy_predictions.py".

(** The runs of cells 1.0 to 6.0: the calls are made in this order, each
    after the previous one has returned. *)
Definition print_workspace (ws : Workspace.t) : entry :=
  Entry (Builtin_print [PyStr ("Workspace Name: " +:+ Workspace.name ws);
                PyStr ("Azure Region: " +:+ Workspace.location ws);
                PyStr ("Subscription Id: " +:+ Workspace.subscription_id ws);
                PyStr ("Resource Group: " +:+ Workspace.resource_group ws)]
               (String pandas.LF "")) (Ok tt).

Definition submit_call (ws : Workspace.t) (dstore : Datastore.t) (small_dataset : Dataset)
    (output_dstore : Datastore.t) : pyE PipelineRun :=
  Experiment_submit (Experiment.mk ws "forecasting_pipeline")
    (nb.pipeline ws dstore (DatasetConsumptionConfig.mk "forecast_10_models" small_dataset)
                 (DataReference.mk output_dstore))
    nb.tags.

Inductive submit_run : result PipelineRun -> list entry -> Prop :=
| no_workspace ex :
    submit_run (Raise ex) [Entry Workspace_from_config (Raise ex)]
| no_datastore ws ex :
    submit_run (Raise ex)
      [Entry Workspace_from_config (Ok ws);
       Entry (Workspace_get_default_datastore ws) (Raise ex)]
| no_dataset ws dstore ex :
    submit_run (Raise ex)
      [Entry Workspace_from_config (Ok ws);
       Entry (Workspace_get_default_datastore ws) (Ok dstore);
       print_workspace ws;
       Entry (Dataset_get_by_name ws "oj_data_small") (Raise ex)]
| not_registered ws dstore small_dataset ex :
    submit_run (Raise ex)
      [Entry Workspace_from_config (Ok ws);
       Entry (Workspace_get_default_datastore ws) (Ok dstore);
       print_workspace ws;
       Entry (Dataset_get_by_name ws "oj_data_small") (Ok small_dataset);
       Entry (Datastore_register_azure_blob_container (nb.register_predictions ws dstore))
             (Raise ex)]
| submitted ws dstore small_dataset output_dstore r :
    submit_run r
      [Entry Workspace_from_config (Ok ws);
       Entry (Workspace_get_default_datastore ws) (Ok dstore);
       print_workspace ws;
       Entry (Dataset_get_by_name ws "oj_data_small") (Ok small_dataset);
       Entry (Datastore_register_azure_blob_container (nb.register_predictions ws dstore))
             (Ok output_dstore);
       Entry (submit_call ws dstore small_dataset output_dstore) r].

(** A registration of 'predictions' on the account of the default datastore
    the trace shows. *)
Definition registers_on_default_account (tr : list entry) (a : RegisterBlobContainer.t) : Prop :=
  exists ws dstore,
    default_datastores tr = [(ws, dstore)] /\
    a = {| RegisterBlobContainer.workspace := ws;
           RegisterBlobContainer.datastore_name := "predictions";
           RegisterBlobContainer.container_name := "predictions";
           RegisterBlobContainer.account_name := Datastore.account_name dstore;
           RegisterBlobContainer.account_key := Datastore.account_key dstore;
           RegisterBlobContainer.create_if_not_exists := true |}.

(** The calls that read the local filesystem through [os] and [pathlib]. *)
Inductive fs_call : Type :=
| ListDir (p : string)
| IterDir (p : pathlib.Path)
| GetMTime (p : pathlib.Path).

Definition fs_call_of {X} (e : pyE X) : option fs_call :=
  match e with
  | Os_listdir p => Some (ListDir p)
  | Path_iterdir p => Some (IterDir p)
  | Os_path_getmtime p => Some (GetMTime p)
  | _ => None
  end.

Definition fs_calls (tr : list entry) : list fs_call :=
  omap (fun c => match c with Entry e _ => fs_call_of e end) tr.

Definition no_fs_call (X : Type) (e : pyE X) : bool :=
  match fs_call_of e with Some _ => false | None => true end.

Definition sdk_call_sequence : list sdk_call :=
  [from_config; get_default_datastore; get_by_name; register_azure_blob_container; submit;
   find_step_run; get_output_data; download_call].

(** ** Further readings of a trace *)

(** What the platform answered. *)
Definition workspace_found (c : entry) : option Workspace.t :=
  match c with
  | Entry e r =>
      match e in pyE X return result X -> option Workspace.t with
      | Workspace_from_config =>
          fun r => match r with Ok ws => Some ws | Raise _ => None end
      | _ => fun _ => None
      end r
  end.

Definition dataset_found (c : entry) : option Dataset :=
  match c with
  | Entry e r =>
      match e in pyE X return result X -> option Dataset with
      | Dataset_get_by_name _ _ =>
          fun r => match r with Ok d => Some d | Raise _ => None end
      | _ => fun _ => None
      end r
  end.

Definition registered (c : entry) : option Datastore.t :=
  match c with
  | Entry e r =>
      match e in pyE X return result X -> option Datastore.t with
      | Datastore_register_azure_blob_container _ =>
          fun r => match r with Ok d => Some d | Raise _ => None end
      | _ => fun _ => None
      end r
  end.

Definition submitted_run (c : entry) : option PipelineRun :=
  match c with
  | Entry e r =>
      match e in pyE X return result X -> option PipelineRun with
      | Experiment_submit _ _ _ =>
          fun r => match r with Ok run => Some run | Raise _ => None end
      | _ => fun _ => None
      end r
  end.

Definition workspaces_found (tr : list entry) := omap workspace_found tr.
Definition datasets_found (tr : list entry) := omap dataset_found tr.
Definition registered_datastores (tr : list entry) := omap registered tr.
Definition submitted_runs (tr : list entry) := omap submitted_run tr.

(** What was asked of a run, of a step run, of pandas. *)
Definition step_lookup (c : entry) : option (PipelineRun * string) :=
  match c with
  | Entry e _ =>
      match e with
      | PipelineRun_find_step_run run name => Some (run, name)
      | _ => None
      end
  end.

Definition output_lookup (c : entry) : option string :=
  match c with
  | Entry e _ =>
      match e with
      | StepRun_get_output_data _ name => Some name
      | _ => None
      end
  end.

Definition csv_read (c : entry) : option (string * ascii) :=
  match c with
  | Entry e _ =>
      match e with
      | Pd_read_csv filepath sep => Some (filepath, sep)
      | _ => None
      end
  end.

Definition datetime_call (c : entry) : option (list pandas.cell) :=
  match c with
  | Entry e _ =>
      match e with
      | Pd_to_datetime values => Some values
      | _ => None
      end
  end.

Definition groupby_call (c : entry) : option pandas.DataFrame :=
  match c with
  | Entry e _ =>
      match e with
      | Df_groupby_sum_unstack df _ _ _ => Some df
      | _ => None
      end
  end.

Definition step_lookups (tr : list entry) := omap step_lookup tr.
Definition output_lookups (tr : list entry) := omap output_lookup tr.
Definition csv_reads (tr : list entry) := omap csv_read tr.
Definition datetime_calls (tr : list entry) := omap datetime_call tr.
Definition groupby_calls (tr : list entry) := omap groupby_call tr.

Definition PipelineRun_eqb (a b : PipelineRun) : bool :=
  match a, b with run_handle i, run_handle j => N.eqb i j end.

(** Calls that view the results of [run]: a step run is looked up on [run]
    only, by the name of the forecasting step, and an output by the name
    'forecasting_output'. *)
Definition views_run (run : PipelineRun) (X : Type) (e : pyE X) : bool :=
  match e with
  | PipelineRun_find_step_run r name =>
      PipelineRun_eqb r run && String.eqb name "many-models-forecasting"
  | StepRun_get_output_data _ name => String.eqb name "forecasting_output"
  | _ => after_submit X e
  end.

(** Calls that read no file with pandas, and calls that read at most the
    file [filepath], space-separated. *)
Definition reads_no_csv (X : Type) (e : pyE X) : bool :=
  match e with Pd_read_csv _ _ => false | _ => true end.

Definition reads_only (filepath : string) (X : Type) (e : pyE X) : bool :=
  match e with
  | Pd_read_csv f sep => String.eqb f filepath && Ascii.eqb sep " "
  | _ => true
  end.

(** A program that raises nothing of its own: on every path, an exception
    can only come from a call. *)
Inductive never_throws {R} : prog R -> Prop :=
| never_throws_Ret r : never_throws (Ret r)
| never_throws_Vis X (e : pyE X) k :
    (forall x, never_throws (k x)) -> never_throws (Vis e k).

(** Cells 7.3, on the dataframe of cell 7.2. *)
Definition plot_all (df : pandas.DataFrame) : prog unit :=
  nb.plot_by_brand df ;;; nb.plot_over_time df ;;; nb.plot_store df.

(** The fields of a record of the predictions file. *)
Definition fields (l : string) : list pandas.cell := map pandas.CStr (split_on " " l).

(** ** General facts about runs *)

Lemma exec_bind {S A B} (h : handler S) (p : prog A) (f : A -> prog B) (s : S) :
  exec h (bind p f) s =
  match exec h p s with
  | (Ok a, tr, s') => let '(res, tr', s'') := exec h (f a) s' in (res, (tr ++ tr')%list, s'')
  | (Raise ex, tr, s') => (Raise ex, tr, s')
  end.
Proof.
  revert s. induction p as [a | ex | X e k IH]; intros s; simpl.
  - destruct (exec h (f a) s) as [[res tr'] s'']. reflexivity.
  - reflexivity.
  - destruct (h X e s) as [[x | ex] s']; [| reflexivity].
    rewrite IH. destruct (exec h (k x) s') as [[[a | ex] tr] s1]; [| reflexivity].
    destruct (exec h (f a) s1) as [[res tr'] s'']. reflexivity.
Qed.

Lemma outcome_bind {S A B} (h : handler S) (p : prog A) (f : A -> prog B) (s : S) :
  outcome h (bind p f) s =
  match outcome h p s with
  | Ok a => outcome h (f a) (final h p s)
  | Raise ex => Raise ex
  end.
Proof.
  unfold outcome, final. rewrite exec_bind.
  destruct (exec h p s) as [[[a | ex] tr] s']; simpl; [| reflexivity].
  destruct (exec h (f a) s') as [[res tr'] s'']. reflexivity.
Qed.

Lemma trace_bind {S A B} (h : handler S) (p : prog A) (f : A -> prog B) (s : S) :
  trace h (bind p f) s =
  match outcome h p s with
  | Ok a => (trace h p s ++ trace h (f a) (final h p s))%list
  | Raise ex => trace h p s
  end.
Proof.
  unfold outcome, trace, final. rewrite exec_bind.
  destruct (exec h p s) as [[[a | ex] tr] s']; simpl; [| reflexivity].
  destruct (exec h (f a) s') as [[res tr'] s'']. reflexivity.
Qed.

Lemma final_bind {S A B} (h : handler S) (p : prog A) (f : A -> prog B) (s : S) :
  final h (bind p f) s =
  match outcome h p s with
  | Ok a => final h (f a) (final h p s)
  | Raise ex => final h p s
  end.
Proof.
  unfold outcome, final. rewrite exec_bind.
  destruct (exec h p s) as [[[a | ex] tr] s']; simpl; [| reflexivity].
  destruct (exec h (f a) s') as [[res tr'] s'']. reflexivity.
Qed.

Lemma trace_Vis {S R X} (h : handler S) (e : pyE X) (k : X -> prog R) (s : S) :
  trace h (Vis e k) s =
  match h _ e s with
  | (Ok x, s') => Entry e (Ok x) :: trace h (k x) s'
  | (Raise ex, _) => [Entry e (Raise ex)]
  end.
Proof.
  unfold trace. cbn [exec]. destruct (h X e s) as [[x | ex] s']; [| reflexivity].
  destruct (exec h (k x) s') as [[res tr] s'']. reflexivity.
Qed.

Section CallsOnly.
Context (Q : forall X, pyE X -> bool).

Lemma calls_only_bind {A B} (p : prog A) (f : A -> prog B) :
  calls_only Q p -> (forall a, calls_only Q (f a)) -> calls_only Q (bind p f).
Proof.
  intros Hp Hf. induction Hp as [a | ex | X e k He Hk IH]; simpl.
  - apply Hf.
  - constructor.
  - constructor; [exact He | exact IH].
Qed.

Lemma calls_only_call {X} (e : pyE X) : Q X e = true -> calls_only Q (call e).
Proof. intros He. constructor; [exact He | intros x; constructor]. Qed.

Lemma calls_only_lift {A} (r : result A) : calls_only Q (lift r).
Proof. destruct r; constructor. Qed.

Lemma calls_only_for_each {A B} (f : A -> prog B) (l : list A) :
  (forall a, calls_only Q (f a)) -> calls_only Q (for_each f l).
Proof.
  intros Hf. induction l as [| a l IH]; simpl.
  - constructor.
  - apply calls_only_bind; [apply Hf |]. intros b.
    apply calls_only_bind; [exact IH |]. intros bs. constructor.
Qed.

Lemma calls_only_trace {S R} (h : handler S) (p : prog R) (s : S) :
  calls_only Q p -> Forall (fun c => entry_sat Q c = true) (trace h p s).
Proof.
  intros Hp. revert s. unfold trace.
  induction Hp as [a | ex | X e k He Hk IH]; intros s; simpl.
  - constructor.
  - constructor.
  - destruct (h X e s) as [[x | ex] s'].
    + specialize (IH x s'). destruct (exec h (k x) s') as [[res tr] s''].
      simpl in *. constructor; [exact He | exact IH].
    + simpl. constructor; [exact He | constructor].
Qed.
End CallsOnly.

(** ** Indexing and sorting *)

Lemma nth_error_pred_length {A} (l : list A) :
  nth_error l (pred (length l)) = last l.
Proof.
  induction l as [| a [| b l] IH]; [reflexivity | reflexivity |].
  rewrite last_cons_cons. rewrite <- IH. reflexivity.
Qed.

Lemma getitem_last {A} (l : list A) :
  builtins.getitem l (-1) =
  match last l with Some x => Ok x | None => Raise IndexError end.
Proof.
  unfold builtins.getitem. rewrite <- nth_error_pred_length.
  destruct l as [| a l]; [reflexivity |].
  cbn [length]. replace (-1 <? 0) with true by reflexivity.
  replace (-1 + Z.of_nat (S (length l))) with (Z.of_nat (length l)) by lia.
  replace (Z.of_nat (length l) <? 0) with false by (symmetry; apply Z.ltb_ge; lia).
  replace (Z.of_nat (S (length l)) <=? Z.of_nat (length l)) with false
    by (symmetry; apply Z.leb_gt; lia).
  rewrite Nat2Z.id. simpl.
  destruct (nth_error (a :: l) (length l)); reflexivity.
Qed.

Lemma getitem_first {A} (l : list A) :
  builtins.getitem l 0 =
  match l with x :: _ => Ok x | [] => Raise IndexError end.
Proof.
  unfold builtins.getitem. destruct l as [| a l]; [reflexivity |].
  cbn [length]. replace (0 <? 0) with false by reflexivity.
  replace (Z.of_nat (S (length l)) <=? 0) with false
    by (symmetry; apply Z.leb_gt; lia).
  reflexivity.
Qed.

Section Sorting.
Context {A : Type} (key : A -> Z).

Lemma insert_by_Permutation (x : A) (l : list A) :
  Permutation (builtins.insert_by key x l) (x :: l).
Proof.
  induction l as [| y l IH]; simpl; [reflexivity |].
  destruct (key x <=? key y); [reflexivity |].
  rewrite IH. apply perm_swap.
Qed.

Lemma sorted_Permutation (l : list A) : Permutation (builtins.sorted key l) l.
Proof.
  induction l as [| x l IH]; simpl; [reflexivity |].
  rewrite insert_by_Permutation. constructor. exact IH.
Qed.

Lemma last_insert_by (x : A) (l : list A) :
  ascending key l ->
  last (builtins.insert_by key x l) =
  match last l with
  | Some z => if key x <=? key z then Some z else Some x
  | None => Some x
  end.
Proof.
  induction l as [| y l IH]; intros Hasc; [reflexivity |].
  assert (Hl : ascending key l).
  { intros z Hz. specialize (Hasc z). rewrite last_cons, Hz in Hasc.
    specialize (Hasc eq_refl). inversion Hasc; assumption. }
  simpl. destruct (key x <=? key y) eqn:Hxy.
  - rewrite last_cons_cons.
    destruct (last (y :: l)) as [z |] eqn:Hz.
    + specialize (Hasc z Hz). inversion Hasc; subst.
      replace (key x <=? key z) with true; [reflexivity |].
      symmetry. apply Z.leb_le. apply Z.leb_le in Hxy. lia.
    + apply last_None in Hz. discriminate Hz.
  - rewrite last_cons. rewrite (IH Hl). rewrite (last_cons y l).
    destruct (last l) as [z |] eqn:Hz.
    + destruct (key x <=? key z); reflexivity.
    + rewrite Hxy. reflexivity.
Qed.

Lemma insert_by_ascending (x : A) (l : list A) :
  ascending key l -> ascending key (builtins.insert_by key x l).
Proof.
  intros Hasc z Hz. rewrite last_insert_by in Hz by exact Hasc.
  rewrite insert_by_Permutation.
  destruct (last l) as [w |] eqn:Hw.
  - specialize (Hasc w Hw).
    destruct (key x <=? key w) eqn:Hxw; injection Hz as <-.
    + constructor; [apply Z.leb_le; exact Hxw | exact Hasc].
    + apply Z.leb_gt in Hxw. constructor; [lia |].
      eapply Forall_impl; [exact Hasc |]. simpl. intros; lia.
  - apply last_None in Hw. subst l. injection Hz as <-.
    constructor; [lia | constructor].
Qed.

Lemma sorted_ascending (l : list A) : ascending key (builtins.sorted key l).
Proof.
  induction l as [| x l IH]; simpl.
  - intros z Hz. discriminate Hz.
  - apply insert_by_ascending. exact IH.
Qed.

(** The element [sorted(l, key)[-1]] is in [l] and no element of [l] has a
    greater key. *)
Lemma sorted_last_max (l : list A) (z : A) :
  last (builtins.sorted key l) = Some z ->
  In z l /\ Forall (fun y => key y <= key z) l.
Proof.
  intros Hz. split.
  - apply list_elem_of_In. rewrite <- (sorted_Permutation l).
    apply last_Some_elem_of. exact Hz.
  - rewrite <- (sorted_Permutation l). apply sorted_ascending. exact Hz.
Qed.

Lemma sorted_nonempty (l : list A) : l <> [] -> builtins.sorted key l <> [].
Proof.
  intros Hl Hs. apply Hl. apply Permutation_nil.
  rewrite <- Hs. apply sorted_Permutation.
Qed.

(** When one element has a key above all others, it is the last one,
    whatever the order of [l]. *)
Lemma sorted_last_unique (l : list A) (x : A) :
  In x l -> (forall y, In y l -> y = x \/ key y < key x) ->
  last (builtins.sorted key l) = Some x.
Proof.
  intros Hx Hmax.
  destruct (last (builtins.sorted key l)) as [z |] eqn:Hz.
  - destruct (sorted_last_max l z Hz) as [Hzl Hall].
    destruct (Hmax z Hzl) as [-> | Hlt]; [reflexivity |].
    rewrite Forall_forall in Hall. apply list_elem_of_In in Hx.
    specialize (Hall x Hx). simpl in Hall. lia.
  - apply last_None in Hz. exfalso.
    apply (sorted_nonempty l); [| exact Hz]. intros ->. contradiction.
Qed.
End Sorting.

(** Sorting the pairs (key, element) by their first component and dropping
    the keys is sorting the elements by key. *)
Lemma insert_by_decorated {A} (key : A -> Z) (a : A) (l : list A) :
  builtins.insert_by fst (key a, a) (map (fun b => (key b, b)) l) =
  map (fun b => (key b, b)) (builtins.insert_by key a l).
Proof.
  induction l as [| b l IH]; [reflexivity |].
  simpl. destruct (key a <=? key b); [reflexivity |].
  simpl. rewrite IH. reflexivity.
Qed.

Lemma sorted_decorated {A} (key : A -> Z) (l : list A) :
  map snd (builtins.sorted fst (map (fun a => (key a, a)) l)) = builtins.sorted key l.
Proof.
  assert (H : builtins.sorted fst (map (fun a => (key a, a)) l) =
              map (fun a => (key a, a)) (builtins.sorted key l)).
  { induction l as [| a l IH]; [reflexivity |].
    change (builtins.sorted fst (map (fun a => (key a, a)) (a :: l)))
      with (builtins.insert_by fst (key a, a)
              (builtins.sorted fst (map (fun a => (key a, a)) l))).
    rewrite IH. apply insert_by_decorated. }
  rewrite H. rewrite map_map. simpl. apply map_id.
Qed.

(** ** The local steps of [download_predictions] *)

Lemma omap_all_None {A B} (f : A -> option B) (l : list A) :
  Forall (fun a => f a = None) l -> omap f l = [].
Proof.
  induction 1 as [| a l Ha _ IH]; [reflexivity |].
  simpl. rewrite Ha. exact IH.
Qed.

Lemma stat_each_mtime_of (fs : FileSystem) (l : list pathlib.Path) :
  Forall (fun p => is_ok (getmtime fs p) = true) l ->
  stat_each fs l = Ok (map (fun p => (mtime_of fs p, p)) l).
Proof.
  induction 1 as [| p l Hp _ IH]; [reflexivity |].
  simpl. unfold mtime_of at 1.
  destruct (getmtime fs p) as [t | ex]; [| discriminate Hp].
  rewrite IH. reflexivity.
Qed.

Lemma stat_each_Raise (fs : FileSystem) (l : list pathlib.Path) (ex : exn) :
  stat_each fs l = Raise ex -> ex = FileNotFoundError.
Proof.
  induction l as [| p l IH]; simpl; [discriminate |].
  unfold getmtime at 1. destruct (stat fs p) as [n |].
  - destruct (stat_each fs l) as [kl | ex']; [discriminate |].
    intros [= <-]. apply IH. reflexivity.
  - intros [= <-]. reflexivity.
Qed.

Section World.
Context {C : Type} (outside : handler (C * FileSystem)).

Lemma exec_stat_each (l : list pathlib.Path) (s : C * FileSystem) :
  exists tr,
    exec (world outside)
         (for_each (fun p => t <- call (Os_path_getmtime p) ;; Ret (t, p)) l) s
    = (stat_each (snd s) l, tr, s) /\
    Forall (fun c => local_call c = true) tr.
Proof.
  induction l as [| p l IH].
  - exists []. split; [reflexivity | constructor].
  - destruct IH as [tr [IH Htr]]. cbn [bind call] in IH.
    cbn [for_each]. rewrite exec_bind. cbn [bind call exec world].
    destruct (getmtime (snd s) p) as [t | ex] eqn:Ht.
    + rewrite exec_bind, IH. cbn [stat_each]. rewrite Ht.
      destruct (stat_each (snd s) l) as [kl | ex].
      * eexists. split; [reflexivity |].
        constructor; [reflexivity |]. rewrite app_nil_r. exact Htr.
      * eexists. split; [reflexivity |].
        constructor; [reflexivity | exact Htr].
    + cbn [stat_each]. rewrite Ht.
      eexists. split; [reflexivity |].
      constructor; [reflexivity | constructor].
Qed.

Lemma exec_download_predictions (s : C * FileSystem) (run : PipelineRun)
    (dir : string) (port_data : PortDataReference) (s3 : C * FileSystem) :
  downloads_to outside s run dir port_data s3 ->
  exists stitch_run others tr,
    exec (world outside) (nb.download_predictions run (Some dir)) s
    = (latest_output (snd s3) dir,
       (Entry (PipelineRun_find_step_run run "many-models-forecasting")
              (Ok (stitch_run :: others))
        :: Entry (StepRun_get_output_data stitch_run "forecasting_output") (Ok port_data)
        :: Entry (Builtin_print [PyPortData port_data] " ") (Ok tt)
        :: Entry (PortDataReference_download port_data (Some dir) true true) (Ok tt)
        :: tr)%list,
       s3) /\
    Forall (fun c => local_call c = true) tr.
Proof.
  intros (stitch_run & others & s1 & s2 & H1 & H2 & H3).
  exists stitch_run, others.
  unfold nb.download_predictions.
  cbn [bind call exec world lift]. rewrite H1.
  rewrite getitem_first. cbn [bind call exec world lift]. rewrite H2.
  cbn [bind call exec world lift]. rewrite H3.
  cbn [bind call exec world lift os.fspath].
  unfold latest_output.
  destruct (listdir (snd s3) (os.path.join dir "azureml")) as [names | ex] eqn:Hnames.
  2:{ eexists. split; [reflexivity |]. repeat constructor. }
  destruct (builtins.getitem names 0) as [step_hash | ex] eqn:Hfirst.
  2:{ cbn [bind call exec world lift]. eexists. split; [reflexivity |]. repeat constructor. }
  cbn [bind call exec world lift].
  destruct (iterdir (snd s3) (pathlib.of_string (os.path.join dir "azureml")))
    as [entries | ex] eqn:Hentries.
  2:{ eexists. split; [reflexivity |]. repeat constructor. }
  rewrite exec_bind.
  destruct (exec_stat_each entries s3) as [tr [Hstat Htr]].
  cbn [bind call] in Hstat. rewrite Hstat.
  destruct (stat_each (snd s3) entries) as [keyed | ex].
  2:{ eexists. split; [reflexivity |]. repeat constructor. exact Htr. }
  destruct (builtins.getitem (map snd (builtins.sorted fst keyed)) (-1)) as [last | ex].
  - cbn [bind call exec world lift]. eexists. split; [reflexivity |].
    repeat constructor. rewrite app_nil_r. exact Htr.
  - cbn [bind call exec world lift]. eexists. split; [reflexivity |].
    repeat constructor. rewrite app_nil_r. exact Htr.
Qed.

End World.

Section DownloadPredictions.
Context {C : Type} (outside : handler (C * FileSystem)).

Lemma download_predictions_no_step (s s1 : C * FileSystem) (run : PipelineRun)
    (target_dir : option string) :
  outside _ (PipelineRun_find_step_run run "many-models-forecasting") s = (Ok [], s1) ->
  outcome (world outside) (nb.download_predictions run target_dir) s = Raise IndexError.
Proof.
  intros H. unfold outcome, nb.download_predictions.
  cbn [bind call exec world lift]. rewrite H. reflexivity.
Qed.

Lemma download_predictions_Ok (s : C * FileSystem) (run : PipelineRun)
    (target_dir : option string) (p : string) :
  outcome (world outside) (nb.download_predictions run target_dir) s = Ok p ->
  exists dir port_data s3,
    target_dir = Some dir /\
    downloads_to outside s run dir port_data s3 /\
    latest_output (snd s3) dir = Ok p /\
    final (world outside) (nb.download_predictions run target_dir) s = s3.
Proof.
  intros Hp.
  assert (Hpre : exists dir port_data s3,
             target_dir = Some dir /\ downloads_to outside s run dir port_data s3).
  { revert Hp. unfold outcome, nb.download_predictions.
    cbn [bind call exec world lift].
    destruct (outside _ (PipelineRun_find_step_run run "many-models-forecasting") s)
      as [[step_runs | ex] s1] eqn:H1; [| discriminate].
    rewrite getitem_first.
    destruct step_runs as [| stitch_run others]; [discriminate |].
    cbn [bind call exec world lift].
    destruct (outside _ (StepRun_get_output_data stitch_run "forecasting_output") s1)
      as [[port_data | ex] s2] eqn:H2; [| discriminate].
    cbn [bind call exec world lift].
    destruct (outside _ (PortDataReference_download port_data target_dir true true) s2)
      as [[[] | ex] s3] eqn:H3; [| discriminate].
    destruct target_dir as [dir |]; [| discriminate].
    intros _. exists dir, port_data, s3. split; [reflexivity |].
    exists stitch_run, others, s1, s2. auto. }
  destruct Hpre as (dir & port_data & s3 & -> & Hdl).
  exists dir, port_data, s3. split; [reflexivity |]. split; [exact Hdl |].
  destruct (exec_download_predictions outside s run dir port_data s3 Hdl)
    as (stitch_run & others & tr & Hexec & _).
  unfold outcome, final in *. rewrite Hexec in *. simpl in *. auto.
Qed.

Lemma download_predictions_outcome (s : C * FileSystem) (run : PipelineRun)
    (dir : string) (port_data : PortDataReference) (s3 : C * FileSystem) :
  downloads_to outside s run dir port_data s3 ->
  outcome (world outside) (nb.download_predictions run (Some dir)) s
  = latest_output (snd s3) dir.
Proof.
  intros Hdl.
  destruct (exec_download_predictions outside s run dir port_data s3 Hdl)
    as (stitch_run & others & tr & Hexec & _).
  unfold outcome. rewrite Hexec. reflexivity.
Qed.

End DownloadPredictions.

(** [latest_output] spelled out on the listing of the directory. *)
Lemma latest_output_listing (fs : FileSystem) (dir : string) :
  latest_output fs dir =
  match listdir fs (os.path.join dir "azureml") with
  | Raise ex => Raise ex
  | Ok [] => Raise IndexError
  | Ok names =>
      match stat_each fs (entries_of dir names) with
      | Raise ex => Raise ex
      | Ok keyed =>
          match last (map snd (builtins.sorted fst keyed)) with
          | Some latest => Ok (os.path.join (pathlib.to_string latest) "forecasting_output")
          | None => Raise IndexError
          end
      end
  end.
Proof.
  unfold latest_output, listdir, iterdir, entries_of.
  destruct (stat fs (pathlib.of_string (os.path.join dir "azureml"))) as [[content t | names t] |];
    try reflexivity.
  rewrite getitem_first. destruct names as [| n names]; [reflexivity |].
  destruct (stat_each fs _) as [keyed | ex]; [| reflexivity].
  rewrite getitem_last. destruct (last _); reflexivity.
Qed.

Lemma latest_output_Ok (fs : FileSystem) (dir : string) (p : string) :
  latest_output fs dir = Ok p ->
  exists names latest,
    listdir fs (os.path.join dir "azureml") = Ok names /\ names <> [] /\
    Forall (fun e => is_ok (getmtime fs e) = true) (entries_of dir names) /\
    last (builtins.sorted (mtime_of fs) (entries_of dir names)) = Some latest /\
    p = os.path.join (pathlib.to_string latest) "forecasting_output".
Proof.
  rewrite latest_output_listing.
  destruct (listdir fs (os.path.join dir "azureml")) as [names | ex]; [| discriminate].
  destruct names as [| n names]; [discriminate |].
  set (all := n :: names).
  assert (Hall : Forall (fun e => is_ok (getmtime fs e) = true) (entries_of dir all)
                 \/ exists ex, stat_each fs (entries_of dir all) = Raise ex).
  { generalize (entries_of dir all). intros l.
    induction l as [| e l [IH | [ex IH]]]; [left; constructor | |].
    - destruct (getmtime fs e) as [t |] eqn:He.
      + left. constructor; [rewrite He; reflexivity | exact IH].
      + right. exists e0. simpl. rewrite He. reflexivity.
    - right. simpl. destruct (getmtime fs e); [| eauto]. rewrite IH. eauto. }
  destruct Hall as [Hall | [ex Hex]].
  - rewrite (stat_each_mtime_of fs _ Hall). rewrite sorted_decorated.
    destruct (last _) as [latest |] eqn:Hlast; [| discriminate].
    intros [= <-]. exists all, latest. repeat split; auto; discriminate.
  - rewrite Hex. discriminate.
Qed.

Lemma latest_output_total (fs : FileSystem) (dir : string) (names : list string) :
  listdir fs (os.path.join dir "azureml") = Ok names -> names <> [] ->
  Forall (fun e => is_ok (getmtime fs e) = true) (entries_of dir names) ->
  exists latest,
    builtins.getitem (builtins.sorted (mtime_of fs) (entries_of dir names)) (-1) = Ok latest /\
    latest_output fs dir = Ok (os.path.join (pathlib.to_string latest) "forecasting_output").
Proof.
  intros Hnames Hne Hall. rewrite latest_output_listing, Hnames.
  destruct names as [| n names]; [contradiction |].
  rewrite (stat_each_mtime_of fs _ Hall), sorted_decorated, getitem_last.
  destruct (last _) as [latest |] eqn:Hlast.
  - exists latest. split; reflexivity.
  - exfalso. apply last_None in Hlast. revert Hlast. apply sorted_nonempty. discriminate.
Qed.

Lemma local_call_not_download (c : entry) : local_call c = true -> download c = None.
Proof. destruct c as [X e r]. destruct e; simpl; intros H; try reflexivity; discriminate H. Qed.

(** * The claims *)

(** ** download_predictions (cell 7.1) *)

(** C3, as stated, fails: on a run that has the step "many-models-forecasting"
    but whose download leaves no [output/azureml] directory,
    [download_predictions(run, 'output')] raises instead of returning a
    path. *)
Lemma C3_counterexample :
  fst (Sample.outside [step_run_handle 1] (fun _ fs => fs) _
         (PipelineRun_find_step_run (run_handle 1) "many-models-forecasting") Sample.start)
  = Ok [step_run_handle 1] /\
  outcome Sample.empty_output
          (nb.download_predictions (run_handle 1) (Some "output")) Sample.start
  = Raise FileNotFoundError.
Proof. split; reflexivity. Qed.

(** C3 (amended): for every run with a step named "many-models-forecasting"
    and every target directory, when the platform's calls go through and,
    after the download, target_dir/azureml exists and holds at least one
    entry, each with a modification time, [download_predictions(run,
    target_dir)] has downloaded the 'forecasting_output' port data of the
    first such step run into target_dir (once), and returns the join of the
    last entry of target_dir/azureml, sorted by modification time, with
    'forecasting_output'. *)
Theorem C3_download_predictions_latest {C} (outside : handler (C * FileSystem))
    (s : C * FileSystem) (run : PipelineRun) (dir : string)
    (port_data : PortDataReference) (s3 : C * FileSystem) (names : list string) :
  downloads_to outside s run dir port_data s3 ->
  listdir (snd s3) (os.path.join dir "azureml") = Ok names ->
  names <> [] ->
  Forall (fun e => is_ok (getmtime (snd s3) e) = true) (entries_of dir names) ->
  exists latest,
    builtins.getitem (builtins.sorted (mtime_of (snd s3)) (entries_of dir names)) (-1)
      = Ok latest /\
    outcome (world outside) (nb.download_predictions run (Some dir)) s
      = Ok (os.path.join (pathlib.to_string latest) "forecasting_output") /\
    downloads (trace (world outside) (nb.download_predictions run (Some dir)) s)
      = [(port_data, Some dir)] /\
    final (world outside) (nb.download_predictions run (Some dir)) s = s3.
Proof.
  intros Hdl Hnames Hne Hall.
  destruct (latest_output_total (snd s3) dir names Hnames Hne Hall) as [latest [Hlast Hout]].
  destruct (exec_download_predictions outside s run dir port_data s3 Hdl)
    as (stitch_run & others & tr & Hexec & Htr).
  exists latest. unfold outcome, trace, final. rewrite Hexec. cbn [fst snd].
  repeat split; [exact Hlast | exact Hout |].
  unfold downloads. cbn [omap list_omap download]. f_equal.
  apply omap_all_None. eapply Forall_impl; [exact Htr |].
  intros c. apply local_call_not_download.
Qed.

Lemma C3_witness :
  exists latest,
    builtins.getitem
      (builtins.sorted (mtime_of (Sample.download_here (Some "output") ∅))
                       (entries_of "output" ["run-0001"])) (-1) = Ok latest /\
    outcome Sample.healthy (nb.download_predictions (run_handle 1) (Some "output")) Sample.start
      = Ok (os.path.join (pathlib.to_string latest) "forecasting_output") /\
    downloads (trace Sample.healthy (nb.download_predictions (run_handle 1) (Some "output"))
                     Sample.start)
      = [(port_data_handle 1, Some "output")] /\
    final Sample.healthy (nb.download_predictions (run_handle 1) (Some "output")) Sample.start
      = (tt, Sample.download_here (Some "output") ∅).
Proof.
  apply (C3_download_predictions_latest
           (Sample.outside [step_run_handle 1] Sample.download_here)
           Sample.start (run_handle 1) "output" (port_data_handle 1)
           (tt, Sample.download_here (Some "output") ∅) ["run-0001"]).
  - exists (step_run_handle 1), [], Sample.start, Sample.start.
    repeat split; reflexivity.
  - vm_compute. reflexivity.
  - discriminate.
  - repeat constructor.
Defined.

(** C8: [download_predictions] is partial.  It raises IndexError when the
    run has no step named "many-models-forecasting" (the empty list is
    indexed at 0); once the download is done, it raises FileNotFoundError
    when target_dir/azureml does not exist and IndexError when it holds no
    entry; and when it returns a path, the run had such a step and
    target_dir/azureml holds at least one entry. *)
Theorem C8_download_predictions_partial {C} (outside : handler (C * FileSystem))
    (s : C * FileSystem) (run : PipelineRun) :
  (forall target_dir s1,
      outside _ (PipelineRun_find_step_run run "many-models-forecasting") s = (Ok [], s1) ->
      outcome (world outside) (nb.download_predictions run target_dir) s = Raise IndexError) /\
  (forall dir port_data s3,
      downloads_to outside s run dir port_data s3 ->
      (stat (snd s3) (pathlib.of_string (os.path.join dir "azureml")) = None ->
       outcome (world outside) (nb.download_predictions run (Some dir)) s
       = Raise FileNotFoundError) /\
      (forall t,
          stat (snd s3) (pathlib.of_string (os.path.join dir "azureml")) = Some (Dir [] t) ->
          outcome (world outside) (nb.download_predictions run (Some dir)) s
          = Raise IndexError)) /\
  (forall target_dir p,
      outcome (world outside) (nb.download_predictions run target_dir) s = Ok p ->
      exists dir stitch_run others s1 names,
        target_dir = Some dir /\
        outside _ (PipelineRun_find_step_run run "many-models-forecasting") s
          = (Ok (stitch_run :: others), s1) /\
        listdir (snd (final (world outside) (nb.download_predictions run target_dir) s))
                (os.path.join dir "azureml") = Ok names /\
        names <> []).
Proof.
  split; [| split].
  - intros target_dir s1 H. eapply download_predictions_no_step; exact H.
  - intros dir port_data s3 Hdl.
    rewrite (download_predictions_outcome outside s run dir port_data s3 Hdl).
    rewrite latest_output_listing. unfold listdir. split.
    + intros ->. reflexivity.
    + intros t ->. reflexivity.
  - intros target_dir p Hp.
    destruct (download_predictions_Ok outside s run target_dir p Hp)
      as (dir & port_data & s3 & -> & Hdl & Hout & Hfin).
    destruct (latest_output_Ok _ _ _ Hout) as (names & latest & Hnames & Hne & _).
    destruct Hdl as (stitch_run & others & s1 & s2 & H1 & _).
    exists dir, stitch_run, others, s1, names. rewrite Hfin. auto.
Qed.

Lemma C8_witness :
  outcome Sample.no_step (nb.download_predictions (run_handle 1) (Some "output")) Sample.start
    = Raise IndexError /\
  outcome Sample.empty_output (nb.download_predictions (run_handle 1) (Some "output"))
          Sample.start
    = Raise FileNotFoundError /\
  outcome (Sample.leaving {["output/azureml" := Dir [] 7]})
          (nb.download_predictions (run_handle 1) (Some "output")) Sample.start
    = Raise IndexError /\
  exists dir stitch_run others s1 names,
    Some "output" = Some dir /\
    Sample.outside [step_run_handle 1] Sample.download_here _
      (PipelineRun_find_step_run (run_handle 1) "many-models-forecasting") Sample.start
      = (Ok (stitch_run :: others), s1) /\
    listdir (snd (final Sample.healthy
                        (nb.download_predictions (run_handle 1) (Some "output")) Sample.start))
            (os.path.join dir "azureml") = Ok names /\
    names <> [].
Proof.
  split; [| split; [| split]].
  - apply (proj1 (C8_download_predictions_partial
                    (Sample.outside [] Sample.download_here) Sample.start (run_handle 1))
                 (Some "output") Sample.start).
    reflexivity.
  - apply (proj1 (proj1 (proj2 (C8_download_predictions_partial
                    (Sample.outside [step_run_handle 1] (fun _ fs => fs))
                    Sample.start (run_handle 1)))
                    "output" (port_data_handle 1) Sample.start
                    ltac:(exists (step_run_handle 1), [], Sample.start, Sample.start;
                          repeat split; reflexivity))).
    reflexivity.
  - apply (proj2 (proj1 (proj2 (C8_download_predictions_partial
                    (Sample.outside [step_run_handle 1]
                                    (fun _ _ => {["output/azureml" := Dir [] 7]}))
                    Sample.start (run_handle 1)))
                    "output" (port_data_handle 1)
                    (tt, {["output/azureml" := Dir [] 7]})
                    ltac:(exists (step_run_handle 1), [], Sample.start, Sample.start;
                          repeat split; reflexivity)) 7).
    reflexivity.
  - apply (proj2 (proj2 (C8_download_predictions_partial
                    (Sample.outside [step_run_handle 1] Sample.download_here)
                    Sample.start (run_handle 1)))
                 (Some "output") "output/azureml/run-0001/forecasting_output").
    reflexivity.
Defined.

(** *** The order of enumeration *)

Lemma stat_each_forallb (fs : FileSystem) (l : list pathlib.Path) :
  stat_each fs l =
  if forallb (fun p => is_ok (getmtime fs p)) l
  then Ok (map (fun p => (mtime_of fs p, p)) l)
  else Raise FileNotFoundError.
Proof.
  induction l as [| p l IH]; [reflexivity |].
  cbn [stat_each forallb map]. unfold mtime_of at 1.
  destruct (getmtime fs p) as [t | ex] eqn:Hp; cbn [is_ok andb].
  - rewrite IH. destruct (forallb _ l); reflexivity.
  - unfold getmtime in Hp. destruct (stat fs p); [discriminate Hp |].
    injection Hp as <-. reflexivity.
Qed.

Lemma forallb_Permutation {A} (f : A -> bool) (l l' : list A) :
  Permutation l l' -> forallb f l = forallb f l'.
Proof.
  induction 1 as [| x l l' _ IH | x y l | l l' l'' _ IH1 _ IH2]; simpl.
  - reflexivity.
  - rewrite IH. reflexivity.
  - destruct (f x), (f y); reflexivity.
  - rewrite IH1. exact IH2.
Qed.

Lemma forallb_pointwise {A} (f g : A -> bool) (l : list A) :
  (forall a, f a = g a) -> forallb f l = forallb g l.
Proof.
  intros Hfg. induction l as [| a l IH]; [reflexivity |].
  simpl. rewrite Hfg, IH. reflexivity.
Qed.

Lemma latest_output_unique_latest (fs : FileSystem) (dir : string)
    (names : list string) (latest : string) :
  let az := pathlib.of_string (os.path.join dir "azureml") in
  listdir fs (os.path.join dir "azureml") = Ok names ->
  In latest names ->
  (forall n, In n names ->
     n = latest \/ mtime_of fs (pathlib.child az n) < mtime_of fs (pathlib.child az latest)) ->
  latest_output fs dir =
  if forallb (fun p => is_ok (getmtime fs p)) (entries_of dir names)
  then Ok (os.path.join (pathlib.to_string (pathlib.child az latest)) "forecasting_output")
  else Raise FileNotFoundError.
Proof.
  intros az Hnames Hin Hmax. rewrite latest_output_listing, Hnames.
  destruct names as [| n names]; [contradiction |].
  rewrite stat_each_forallb.
  destruct (forallb _ (entries_of dir (n :: names))); [| reflexivity].
  rewrite sorted_decorated.
  rewrite (sorted_last_unique (mtime_of fs) _ (pathlib.child az latest)); [reflexivity | |].
  - unfold entries_of. apply in_map. exact Hin.
  - intros y Hy. unfold entries_of in Hy. apply in_map_iff in Hy.
    destruct Hy as [m [<- Hm]]. destruct (Hmax m Hm) as [-> | Hlt]; [left; reflexivity |].
    right. exact Hlt.
Qed.

Lemma getmtime_relisted (fs : FileSystem) (d : pathlib.Path)
    (names names' : list string) (t : Z) (p : pathlib.Path) :
  stat fs d = Some (Dir names t) ->
  getmtime (<[pathlib.to_string d := Dir names' t]> fs) p = getmtime fs p.
Proof.
  intros Hd. unfold getmtime, stat in *. rewrite lookup_insert.
  destruct (decide (pathlib.to_string d = pathlib.to_string p)) as [Heq | _]; [| reflexivity].
  rewrite <- Heq, Hd. reflexivity.
Qed.

Lemma latest_output_relisted (fs : FileSystem) (dir : string)
    (names names' : list string) (t : Z) (latest : string) :
  let az := pathlib.of_string (os.path.join dir "azureml") in
  stat fs az = Some (Dir names t) ->
  Permutation names names' ->
  In latest names ->
  (forall n, In n names ->
     n = latest \/ mtime_of fs (pathlib.child az n) < mtime_of fs (pathlib.child az latest)) ->
  latest_output (<[pathlib.to_string az := Dir names' t]> fs) dir = latest_output fs dir.
Proof.
  intros az Hstat Hperm Hin Hmax.
  set (fs' := <[pathlib.to_string az := Dir names' t]> fs).
  assert (Hm : forall p, getmtime fs' p = getmtime fs p).
  { intros p. eapply getmtime_relisted. exact Hstat. }
  assert (Hk : forall p, mtime_of fs' p = mtime_of fs p).
  { intros p. unfold mtime_of. rewrite Hm. reflexivity. }
  assert (Hl : listdir fs (os.path.join dir "azureml") = Ok names).
  { unfold listdir. fold az. rewrite Hstat. reflexivity. }
  assert (Hl' : listdir fs' (os.path.join dir "azureml") = Ok names').
  { unfold listdir, stat, fs'. fold az. rewrite lookup_insert_eq. reflexivity. }
  rewrite (latest_output_unique_latest fs dir names latest Hl Hin Hmax).
  rewrite (latest_output_unique_latest fs' dir names' latest Hl').
  - fold az.
    rewrite (forallb_Permutation _ (entries_of dir names') (entries_of dir names)).
    + rewrite (forallb_pointwise _ (fun p => is_ok (getmtime fs p))); [reflexivity |].
      intros p. rewrite Hm. reflexivity.
    + unfold entries_of. apply Permutation_map. symmetry. exact Hperm.
  - eapply Permutation_in; [exact Hperm | exact Hin].
  - intros n Hn. rewrite !Hk. apply Hmax.
    eapply Permutation_in; [symmetry; exact Hperm | exact Hn].
Qed.

(** C9, as stated, fails: two entries with the same modification time are
    kept by [sorted] in the order of enumeration, so the path returned
    changes with that order. *)
Lemma C9_counterexample :
  Permutation ["run-a"; "run-b"] ["run-b"; "run-a"] /\
  Sample.two_runs ["run-b"; "run-a"] 5 5
    = <["output/azureml" := Dir ["run-b"; "run-a"] 7]>
        (Sample.two_runs ["run-a"; "run-b"] 5 5) /\
  outcome (Sample.leaving (Sample.two_runs ["run-a"; "run-b"] 5 5))
          (nb.download_predictions (run_handle 1) (Some "output")) Sample.start
    = Ok "output/azureml/run-b/forecasting_output" /\
  outcome (Sample.leaving (Sample.two_runs ["run-b"; "run-a"] 5 5))
          (nb.download_predictions (run_handle 1) (Some "output")) Sample.start
    = Ok "output/azureml/run-a/forecasting_output".
Proof.
  split; [apply perm_swap |]. split; [| split]; vm_compute; reflexivity.
Qed.

(** C9 (amended): the value [download_predictions] returns does not depend
    on the order in which the entries of target_dir/azureml are enumerated,
    provided one entry has a modification time later than all the others:
    for two enumeration orders of the same entries with the same modification
    times, it returns the same path (or raises the same exception);
    [step_hash] plays no part. *)
Theorem C9_enumeration_order_irrelevant {C} (outside outside' : handler (C * FileSystem))
    (s s' : C * FileSystem) (run : PipelineRun) (dir : string)
    (port_data port_data' : PortDataReference) (s3 s3' : C * FileSystem)
    (names names' : list string) (t : Z) (latest : string) :
  let az := pathlib.of_string (os.path.join dir "azureml") in
  downloads_to outside s run dir port_data s3 ->
  downloads_to outside' s' run dir port_data' s3' ->
  stat (snd s3) az = Some (Dir names t) ->
  snd s3' = <[pathlib.to_string az := Dir names' t]> (snd s3) ->
  Permutation names names' ->
  In latest names ->
  (forall n, In n names ->
     n = latest \/
     mtime_of (snd s3) (pathlib.child az n) < mtime_of (snd s3) (pathlib.child az latest)) ->
  outcome (world outside') (nb.download_predictions run (Some dir)) s'
  = outcome (world outside) (nb.download_predictions run (Some dir)) s.
Proof.
  intros az Hdl Hdl' Hstat Hfs Hperm Hin Hmax.
  rewrite (download_predictions_outcome outside s run dir port_data s3 Hdl).
  rewrite (download_predictions_outcome outside' s' run dir port_data' s3' Hdl').
  rewrite Hfs. eapply latest_output_relisted; eauto.
Qed.

Lemma C9_witness :
  outcome (Sample.leaving (<["output/azureml" := Dir ["run-b"; "run-a"] 7]>
                             (Sample.two_runs ["run-a"; "run-b"] 5 6)))
          (nb.download_predictions (run_handle 1) (Some "output")) Sample.start
  = outcome (Sample.leaving (Sample.two_runs ["run-a"; "run-b"] 5 6))
            (nb.download_predictions (run_handle 1) (Some "output")) Sample.start.
Proof.
  apply (C9_enumeration_order_irrelevant
           (Sample.outside [step_run_handle 1]
                           (fun _ _ => Sample.two_runs ["run-a"; "run-b"] 5 6))
           (Sample.outside [step_run_handle 1]
                           (fun _ _ => <["output/azureml" := Dir ["run-b"; "run-a"] 7]>
                                         (Sample.two_runs ["run-a"; "run-b"] 5 6)))
           Sample.start Sample.start (run_handle 1) "output"
           (port_data_handle 1) (port_data_handle 1)
           (tt, Sample.two_runs ["run-a"; "run-b"] 5 6)
           (tt, <["output/azureml" := Dir ["run-b"; "run-a"] 7]>
                  (Sample.two_runs ["run-a"; "run-b"] 5 6))
           ["run-a"; "run-b"] ["run-b"; "run-a"] 7 "run-b").
  - exists (step_run_handle 1), [], Sample.start, Sample.start. repeat split; reflexivity.
  - exists (step_run_handle 1), [], Sample.start, Sample.start. repeat split; reflexivity.
  - reflexivity.
  - reflexivity.
  - apply perm_swap.
  - simpl. auto.
  - intros n [<- | [<- | []]]; [right | left; reflexivity].
    vm_compute. reflexivity.
Defined.

(** *** Selection by modification time *)

(** C6, as stated, fails: [download_predictions] computes its result by
    sorting and selecting locally.  With the same answers from the platform
    and the same listing of output/azureml, in the same order, the path it
    returns follows the local modification times. *)
Lemma C6_counterexample :
  listdir (Sample.two_runs ["run-a"; "run-b"] 1 2) "output/azureml"
    = listdir (Sample.two_runs ["run-a"; "run-b"] 2 1) "output/azureml" /\
  outcome (Sample.leaving (Sample.two_runs ["run-a"; "run-b"] 1 2))
          (nb.download_predictions (run_handle 1) (Some "output")) Sample.start
    = Ok "output/azureml/run-b/forecasting_output" /\
  outcome (Sample.leaving (Sample.two_runs ["run-a"; "run-b"] 2 1))
          (nb.download_predictions (run_handle 1) (Some "output")) Sample.start
    = Ok "output/azureml/run-a/forecasting_output".
Proof. repeat split; vm_compute; reflexivity. Qed.

(** C6 (amended): the notebook does contain behaviour that can be verified
    independently of the platform: [download_predictions] computes its result
    by local sorting and selection.  Whatever the platform does, a path it
    returns is that of an entry of target_dir/azureml, joined with
    'forecasting_output', and no entry of that directory has a later
    modification time than that entry. *)
Theorem C6_download_predictions_selects_latest {C} (outside : handler (C * FileSystem))
    (s : C * FileSystem) (run : PipelineRun) (target_dir : option string) (p : string) :
  outcome (world outside) (nb.download_predictions run target_dir) s = Ok p ->
  exists dir names latest,
    let fs := snd (final (world outside) (nb.download_predictions run target_dir) s) in
    let az := pathlib.of_string (os.path.join dir "azureml") in
    target_dir = Some dir /\
    listdir fs (os.path.join dir "azureml") = Ok names /\
    In latest names /\
    Forall (fun n => mtime_of fs (pathlib.child az n) <= mtime_of fs (pathlib.child az latest))
           names /\
    p = os.path.join (pathlib.to_string (pathlib.child az latest)) "forecasting_output".
Proof.
  intros Hp.
  destruct (download_predictions_Ok outside s run target_dir p Hp)
    as (dir & port_data & s3 & -> & Hdl & Hout & Hfin).
  destruct (latest_output_Ok _ _ _ Hout) as (names & e & Hnames & Hne & _ & Hlast & ->).
  destruct (sorted_last_max _ _ _ Hlast) as [Hin Hmax].
  unfold entries_of in Hin. apply in_map_iff in Hin. destruct Hin as [latest [<- Hin]].
  exists dir, names, latest. rewrite Hfin. cbn zeta.
  repeat split; auto.
  unfold entries_of in Hmax. rewrite Forall_map in Hmax. exact Hmax.
Qed.

Lemma C6_witness :
  exists dir names latest,
    let fs := snd (final Sample.healthy
                         (nb.download_predictions (run_handle 1) (Some "output"))
                         Sample.start) in
    let az := pathlib.of_string (os.path.join dir "azureml") in
    Some "output" = Some dir /\
    listdir fs (os.path.join dir "azureml") = Ok names /\
    In latest names /\
    Forall (fun n => mtime_of fs (pathlib.child az n) <= mtime_of fs (pathlib.child az latest))
           names /\
    "output/azureml/run-0001/forecasting_output"
      = os.path.join (pathlib.to_string (pathlib.child az latest)) "forecasting_output".
Proof.
  apply (C6_download_predictions_selects_latest
           (Sample.outside [step_run_handle 1] Sample.download_here)
           Sample.start (run_handle 1) (Some "output")).
  reflexivity.
Defined.

(** ** The notebook as a whole *)

Ltac calls_only_tac :=
  repeat first
    [ apply calls_only_Ret
    | apply calls_only_Throw
    | apply calls_only_Vis; [reflexivity | intros ?]
    | apply calls_only_lift
    | apply calls_only_for_each; intros ?
    | apply calls_only_bind; [| intros ?] ].

Lemma view_results_after_submit (run : PipelineRun) :
  calls_only after_submit (nb.view_results run).
Proof.
  unfold nb.view_results, nb.download_predictions, nb.read_predictions,
    nb.plot_by_brand, nb.plot_over_time, nb.plot_store.
  calls_only_tac.
Qed.

Lemma after_submit_entry (c : entry) :
  entry_sat after_submit c = true ->
  submission c = None /\ registration c = None /\ default_datastore c = None.
Proof.
  destruct c as [X e r]. destruct e; simpl; intros H; try discriminate H; auto.
Qed.

Section Notebook.
Context {C : Type} (outside : handler (C * FileSystem)).

Lemma view_results_trace (run : PipelineRun) (s : C * FileSystem) :
  submissions (trace (world outside) (nb.view_results run) s) = [] /\
  registrations (trace (world outside) (nb.view_results run) s) = [] /\
  default_datastores (trace (world outside) (nb.view_results run) s) = [].
Proof.
  pose proof (calls_only_trace after_submit (world outside) _ s
                (view_results_after_submit run)) as H.
  repeat split; apply omap_all_None; (eapply Forall_impl; [exact H |]);
    intros c Hc; apply after_submit_entry in Hc; tauto.
Qed.

End Notebook.

Ltac ask_outside :=
  cbn [bind call exec world lift];
  match goal with
  | |- context [?outside ?X ?e ?s] =>
      match type of outside with
      | handler _ => destruct (outside X e s) as [[? | ?] ?] eqn:?
      end
  end.

Lemma submit_pipeline_run {C} (outside : handler (C * FileSystem)) (s : C * FileSystem) :
  submit_run (outcome (world outside) nb.submit_pipeline s)
             (trace (world outside) nb.submit_pipeline s).
Proof.
  unfold outcome, trace, nb.submit_pipeline.
  ask_outside; [| apply no_workspace].
  ask_outside; [| apply no_datastore].
  ask_outside; [| apply no_dataset].
  ask_outside; [| apply not_registered].
  ask_outside; apply submitted.
Qed.

Lemma notebook_run {C} (outside : handler (C * FileSystem)) (s : C * FileSystem) :
  exists r tr, submit_run r tr /\
    ((exists ex, r = Raise ex /\
                 trace (world outside) nb.notebook s = tr /\
                 outcome (world outside) nb.notebook s = Raise ex) \/
     (exists run s', r = Ok run /\
                 trace (world outside) nb.notebook s
                 = (tr ++ trace (world outside) (nb.view_results run) s')%list /\
                 outcome (world outside) nb.notebook s
                 = outcome (world outside) (nb.view_results run) s')).
Proof.
  exists (outcome (world outside) nb.submit_pipeline s),
         (trace (world outside) nb.submit_pipeline s).
  split; [apply submit_pipeline_run |].
  unfold nb.notebook. rewrite trace_bind, outcome_bind.
  destruct (outcome (world outside) nb.submit_pipeline s) as [run | ex].
  - right. exists run, (final (world outside) nb.submit_pipeline s). auto.
  - left. exists ex. auto.
Qed.

(** ** Submission of the pipeline (cells 4.0 to 6.0) *)

(** C1: in every run of the notebook the pipeline is submitted at most once,
    and exactly once when the run completes; what is submitted, to the
    experiment named 'forecasting_pipeline', is a pipeline of exactly two
    steps: first the ParallelRunStep "many-models-forecasting" running
    forecast.py, then the PythonScriptStep "copy_predictions" running
    copy_predictions.py. *)
Theorem C1_one_two_step_pipeline_submitted {C} (outside : handler (C * FileSystem))
    (s : C * FileSystem) :
  let tr := trace (world outside) nb.notebook s in
  (length (submissions tr) <= 1)%nat /\
  Forall (fun sub => Experiment.name (fst (fst sub)) = "forecasting_pipeline" /\
                     forecasting_then_copy (snd (fst sub)))
         (submissions tr) /\
  (is_ok (outcome (world outside) nb.notebook s) = true -> length (submissions tr) = 1%nat).
Proof.
  cbn zeta.
  destruct (notebook_run outside s)
    as (r & tr & Hrun & [(ex & -> & -> & ->) | (run & s' & -> & -> & ->)]).
  - inversion Hrun; subst; cbn; repeat split; try lia; try discriminate;
      repeat constructor.
    cbn. do 2 eexists. repeat split.
  - destruct (view_results_trace outside run s') as (Hsub & _ & _).
    unfold submissions in *. rewrite omap_app, Hsub.
    inversion Hrun; subst. cbn. repeat split; try lia.
    repeat constructor. cbn. do 2 eexists. repeat split.
Qed.

Lemma C1_witness :
  is_ok (outcome Sample.healthy nb.notebook Sample.start) = true /\
  length (submissions (trace Sample.healthy nb.notebook Sample.start)) = 1%nat.
Proof.
  split; [reflexivity |].
  apply (proj2 (proj2 (C1_one_two_step_pipeline_submitted
                         (Sample.outside [step_run_handle 1] Sample.download_here)
                         Sample.start))).
  reflexivity.
Defined.

(** ** Registration of the output datastore (cell 5.1) *)

Lemma notebook_registrations {C} (outside : handler (C * FileSystem)) (s : C * FileSystem) :
  let tr := trace (world outside) nb.notebook s in
  (registrations tr = [] /\ is_ok (outcome (world outside) nb.notebook s) = false) \/
  (exists ws dstore,
      default_datastores tr = [(ws, dstore)] /\
      registrations tr = [nb.register_predictions ws dstore]).
Proof.
  cbn zeta.
  destruct (notebook_run outside s)
    as (r & tr & Hrun & [(ex & -> & -> & ->) | (run & s' & -> & -> & ->)]).
  - inversion Hrun; subst; try (left; split; reflexivity);
      right; do 2 eexists; split; reflexivity.
  - destruct (view_results_trace outside run s') as (_ & Hreg & Hds).
    unfold registrations, default_datastores in *. rewrite !omap_app, Hreg, Hds.
    inversion Hrun; subst. right. do 2 eexists; split; reflexivity.
Qed.

(** C10: whenever the notebook registers the 'predictions' datastore, which
    it does at most once and always does in a run that completes, the call
    names the workspace, the datastore name and container name 'predictions',
    the account name and the account key of the workspace's default
    datastore, and create_if_not_exists=True; two runs that got the same
    workspace and default datastore make the same call, whatever else the
    state of the platform is. *)
Theorem C10_predictions_registered_on_default_account {C} (outside : handler (C * FileSystem))
    (s : C * FileSystem) :
  let tr := trace (world outside) nb.notebook s in
  (length (registrations tr) <= 1)%nat /\
  Forall (registers_on_default_account tr) (registrations tr) /\
  (is_ok (outcome (world outside) nb.notebook s) = true ->
   length (registrations tr) = 1%nat) /\
  (forall C' (outside' : handler (C' * FileSystem)) (s' : C' * FileSystem) a a',
      let tr' := trace (world outside') nb.notebook s' in
      default_datastores tr = default_datastores tr' ->
      In a (registrations tr) -> In a' (registrations tr') -> a = a').
Proof.
  cbn zeta.
  destruct (notebook_registrations outside s)
    as [[Hnone Hfail] | (ws & dstore & Hds & Hreg)].
  - rewrite Hnone, Hfail.
    split; [cbn [length]; lia |]. split; [constructor |]. split; [discriminate |].
    intros C' outside' s' a a' _ [].
  - rewrite Hreg.
    split; [cbn [length]; lia |].
    split; [constructor; [exists ws, dstore; split; [exact Hds | reflexivity] | constructor] |].
    split; [reflexivity |].
    intros C' outside' s' a a' Heq [<- | []] Ha'.
    destruct (notebook_registrations outside' s')
      as [[Hnone' _] | (ws' & dstore' & Hds' & Hreg')].
    + rewrite Hnone' in Ha'. contradiction.
    + rewrite Hds, Hds' in Heq. injection Heq as -> ->.
      rewrite Hreg' in Ha'. destruct Ha' as [<- | []]. reflexivity.
Qed.

Lemma C10_witness :
  is_ok (outcome Sample.healthy nb.notebook Sample.start) = true /\
  length (registrations (trace Sample.healthy nb.notebook Sample.start)) = 1%nat.
Proof.
  split; [reflexivity |].
  apply (proj1 (proj2 (proj2 (C10_predictions_registered_on_default_account
                         (Sample.outside [step_run_handle 1] Sample.download_here)
                         Sample.start)))).
  reflexivity.
Defined.

(** ** What the notebook calls *)

Lemma not_sdk_entry (c : entry) :
  entry_sat not_sdk c = true -> match c with Entry e _ => sdk_call_of e end = None.
Proof.
  destruct c as [X e r]. unfold entry_sat, not_sdk.
  destruct (sdk_call_of e); [discriminate | reflexivity].
Qed.

Lemma local_call_not_sdk (c : entry) :
  local_call c = true -> match c with Entry e _ => sdk_call_of e end = None.
Proof. destruct c as [X e r]. destruct e; simpl; intros H; try reflexivity; discriminate H. Qed.

Section SdkCalls.
Context {C : Type} (outside : handler (C * FileSystem)).

Lemma sdk_calls_download_predictions (s : C * FileSystem) (run : PipelineRun)
    (target_dir : option string) :
  sdk_calls (trace (world outside) (nb.download_predictions run target_dir) s)
    `prefix_of` [find_step_run; get_output_data; download_call].
Proof.
  destruct (outside _ (PipelineRun_find_step_run run "many-models-forecasting") s)
    as [[[| stitch_run others] | ex] s1] eqn:H1.
  - unfold trace, nb.download_predictions. cbn [bind call exec world lift]. rewrite H1.
    cbn. eexists; reflexivity.
  - destruct (outside _ (StepRun_get_output_data stitch_run "forecasting_output") s1)
      as [[port_data | ex] s2] eqn:H2.
    + destruct (outside _ (PortDataReference_download port_data target_dir true true) s2)
        as [[[] | ex] s3] eqn:H3.
      * destruct target_dir as [dir |].
        -- destruct (exec_download_predictions outside s run dir port_data s3)
             as (sr & os & tr & Hexec & Htr).
           { exists stitch_run, others, s1, s2. auto. }
           unfold trace. rewrite Hexec. cbn [fst snd].
           unfold sdk_calls. cbn [omap list_omap sdk_call_of].
           rewrite (omap_all_None _ tr).
           ++ exists []. reflexivity.
           ++ eapply Forall_impl; [exact Htr |]. apply local_call_not_sdk.
        -- unfold trace, nb.download_predictions. cbn [bind call exec world lift].
           rewrite H1, getitem_first. cbn [bind call exec world lift].
           rewrite H2. cbn [bind call exec world lift]. rewrite H3.
           cbn. exists []. reflexivity.
      * unfold trace, nb.download_predictions. cbn [bind call exec world lift].
        rewrite H1, getitem_first. cbn [bind call exec world lift].
        rewrite H2. cbn [bind call exec world lift]. rewrite H3.
        cbn. exists []. reflexivity.
    + unfold trace, nb.download_predictions. cbn [bind call exec world lift].
      rewrite H1, getitem_first. cbn [bind call exec world lift]. rewrite H2.
      cbn. eexists; reflexivity.
  - unfold trace, nb.download_predictions. cbn [bind call exec world lift]. rewrite H1.
    cbn. eexists; reflexivity.
Qed.

Lemma sdk_calls_view_results (s : C * FileSystem) (run : PipelineRun) :
  sdk_calls (trace (world outside) (nb.view_results run) s)
    `prefix_of` [find_step_run; get_output_data; download_call].
Proof.
  unfold nb.view_results. rewrite trace_bind.
  destruct (outcome (world outside) (nb.download_predictions run (Some "output")) s)
    as [file_path | ex]; [| apply sdk_calls_download_predictions].
  unfold sdk_calls. rewrite omap_app.
  rewrite (omap_all_None _ (trace _ (bind (nb.read_predictions file_path) _) _)).
  - rewrite app_nil_r. apply sdk_calls_download_predictions.
  - eapply Forall_impl; [apply (calls_only_trace not_sdk) |].
    + unfold nb.read_predictions, nb.plot_by_brand, nb.plot_over_time, nb.plot_store.
      calls_only_tac.
    + apply not_sdk_entry.
Qed.

Lemma exec_stat_each_calls (l : list pathlib.Path) (s : C * FileSystem) :
  exists tr,
    exec (world outside)
         (for_each (fun p => t <- call (Os_path_getmtime p) ;; Ret (t, p)) l) s
    = (stat_each (snd s) l, tr, s) /\
    (is_ok (stat_each (snd s) l) = true -> fs_calls tr = map GetMTime l).
Proof.
  induction l as [| p l IH].
  - exists []. split; reflexivity.
  - destruct IH as [tr [IH Htr]]. cbn [bind call] in IH.
    cbn [for_each]. rewrite exec_bind. cbn [bind call exec world].
    destruct (getmtime (snd s) p) as [t | ex] eqn:Ht.
    + rewrite exec_bind, IH. cbn [stat_each]. rewrite Ht.
      destruct (stat_each (snd s) l) as [kl | ex].
      * eexists. split; [reflexivity |]. intros _.
        unfold fs_calls in *. rewrite app_nil_r.
        cbn [app omap list_omap fs_call_of map]. rewrite Htr by reflexivity. reflexivity.
      * eexists. split; [reflexivity | discriminate].
    + cbn [stat_each]. rewrite Ht.
      eexists. split; [reflexivity | discriminate].
Qed.

(** What [download_predictions] asks of the local filesystem when it returns
    a path. *)
Lemma fs_calls_download_predictions (s : C * FileSystem) (run : PipelineRun)
    (dir : string) (port_data : PortDataReference) (s3 : C * FileSystem) (p : string) :
  downloads_to outside s run dir port_data s3 ->
  latest_output (snd s3) dir = Ok p ->
  exists names entries,
    names <> [] /\
    In (Entry (Os_listdir (os.path.join dir "azureml")) (Ok names))
       (trace (world outside) (nb.download_predictions run (Some dir)) s) /\
    In (Entry (Path_iterdir (pathlib.of_string (os.path.join dir "azureml"))) (Ok entries))
       (trace (world outside) (nb.download_predictions run (Some dir)) s) /\
    fs_calls (trace (world outside) (nb.download_predictions run (Some dir)) s)
    = ListDir (os.path.join dir "azureml")
      :: IterDir (pathlib.of_string (os.path.join dir "azureml"))
      :: map GetMTime entries.
Proof.
  intros (stitch_run & others & s1 & s2 & H1 & H2 & H3) Hout.
  unfold trace, nb.download_predictions.
  cbn [bind call exec world lift]. rewrite H1.
  rewrite getitem_first. cbn [bind call exec world lift]. rewrite H2.
  cbn [bind call exec world lift]. rewrite H3.
  cbn [bind call exec world lift os.fspath].
  unfold latest_output in Hout.
  assert (Hent : forall names entries,
             listdir (snd s3) (os.path.join dir "azureml") = Ok names ->
             iterdir (snd s3) (pathlib.of_string (os.path.join dir "azureml")) = Ok entries ->
             entries = entries_of dir names).
  { unfold listdir, iterdir, entries_of. intros names entries.
    destruct (stat (snd s3) (pathlib.of_string (os.path.join dir "azureml")))
      as [[content t | names' t] |]; try discriminate.
    intros [= <-] [= <-]. reflexivity. }
  destruct (listdir (snd s3) (os.path.join dir "azureml")) as [names | ex] eqn:Hnames;
    [| discriminate Hout].
  destruct (builtins.getitem names 0) as [step_hash | ex] eqn:Hfirst; [| discriminate Hout].
  cbn [bind call exec world lift].
  destruct (iterdir (snd s3) (pathlib.of_string (os.path.join dir "azureml")))
    as [entries | ex] eqn:Hentries; [| discriminate Hout].
  rewrite (Hent names entries eq_refl eq_refl) in *.
  rewrite exec_bind.
  destruct (exec_stat_each_calls (entries_of dir names) s3) as [tr [Hstat Hcalls]].
  cbn [bind call] in Hstat. rewrite Hstat.
  destruct (stat_each (snd s3) (entries_of dir names)) as [keyed | ex]; [| discriminate Hout].
  destruct (builtins.getitem (map snd (builtins.sorted fst keyed)) (-1)) as [last | ex];
    [| discriminate Hout].
  cbn [bind call exec world lift fst snd].
  exists names, (entries_of dir names). split; [| split; [| split]].
  - intros ->. rewrite getitem_first in Hfirst. discriminate Hfirst.
  - do 4 right. left. reflexivity.
  - do 5 right. left. reflexivity.
  - unfold fs_calls in *. cbn [omap list_omap fs_call_of].
    rewrite app_nil_r, Hcalls by reflexivity. reflexivity.
Qed.

Lemma no_fs_call_entry (c : entry) :
  entry_sat no_fs_call c = true -> match c with Entry e _ => fs_call_of e end = None.
Proof.
  destruct c as [X e r]. unfold entry_sat, no_fs_call.
  destruct (fs_call_of e); [discriminate | reflexivity].
Qed.

Lemma fs_calls_view_results (s : C * FileSystem) (run : PipelineRun) :
  is_ok (outcome (world outside) (nb.view_results run) s) = true ->
  exists names entries,
    names <> [] /\
    In (Entry (Os_listdir (os.path.join "output" "azureml")) (Ok names))
       (trace (world outside) (nb.view_results run) s) /\
    In (Entry (Path_iterdir (pathlib.of_string (os.path.join "output" "azureml")))
              (Ok entries))
       (trace (world outside) (nb.view_results run) s) /\
    fs_calls (trace (world outside) (nb.view_results run) s)
    = ListDir (os.path.join "output" "azureml")
      :: IterDir (pathlib.of_string (os.path.join "output" "azureml"))
      :: map GetMTime entries.
Proof.
  unfold nb.view_results. rewrite outcome_bind, trace_bind.
  destruct (outcome (world outside) (nb.download_predictions run (Some "output")) s)
    as [file_path | ex] eqn:Hdp; [| discriminate].
  intros _.
  destruct (download_predictions_Ok outside s run _ _ Hdp)
    as (dir & port_data & s3 & [= <-] & Hdl & Hout & _).
  destruct (fs_calls_download_predictions s run "output" port_data s3 file_path Hdl Hout)
    as (names & entries & Hne & Hin & Hit & Hcalls).
  exists names, entries. split; [exact Hne |].
  split; [apply in_or_app; left; exact Hin |].
  split; [apply in_or_app; left; exact Hit |].
  unfold fs_calls in *. rewrite omap_app, Hcalls.
  rewrite (omap_all_None _ (trace _ _ _)); [apply app_nil_r |].
  eapply Forall_impl; [apply (calls_only_trace no_fs_call) | apply no_fs_call_entry].
  unfold nb.read_predictions, nb.plot_by_brand, nb.plot_over_time, nb.plot_store.
  calls_only_tac.
Qed.

End SdkCalls.

(** C5, as stated, fails: in a run of the notebook, [os.listdir] is called;
    it belongs to Python's standard library, not to the platform's client
    library, and is of none of the listed kinds. *)
Lemma C5_counterexample :
  In (Entry (Os_listdir "output/azureml") (Ok ["run-0001"]))
     (trace Sample.healthy nb.notebook Sample.start) /\
  kind_of (Os_listdir "output/azureml") = None /\
  library_of (Os_listdir "output/azureml") = py_os.
Proof.
  split; [| split; reflexivity].
  vm_compute. do 10 right. left. reflexivity.
Qed.

(** C5 (amended): not every operation of the notebook is a call into the
    platform's client library.  Apart from building objects of the SDK from
    their arguments (the constructors Experiment, Environment, AmlCompute,
    ParallelRunConfig, PipelineData, ParallelRunStep, DataReference,
    PythonScriptStep and Pipeline, and as_named_input and
    CondaDependencies.create), the notebook calls the platform's client
    library in this order, each call at most once: from_config,
    get_default_datastore, get_by_name, register_azure_blob_container, submit,
    find_step_run, get_output_data, download.  A run that completes has also
    read the local filesystem with Python's standard library: it has called
    [os.listdir] on output/azureml, which answered with at least one name,
    then [Path.iterdir] on the same directory, then [os.path.getmtime] once
    on each of the paths that [Path.iterdir] yielded, in the order it yielded
    them, and has made no other call to [os] or [pathlib] that reads the
    filesystem. *)
Theorem C5_platform_calls_then_local_filesystem {C} (outside : handler (C * FileSystem))
    (s : C * FileSystem) :
  let tr := trace (world outside) nb.notebook s in
  sdk_calls tr `prefix_of` sdk_call_sequence /\
  (is_ok (outcome (world outside) nb.notebook s) = true ->
   exists names entries,
     names <> [] /\
     In (Entry (Os_listdir (os.path.join "output" "azureml")) (Ok names)) tr /\
     In (Entry (Path_iterdir (pathlib.of_string (os.path.join "output" "azureml")))
               (Ok entries)) tr /\
     fs_calls tr
     = ListDir (os.path.join "output" "azureml")
       :: IterDir (pathlib.of_string (os.path.join "output" "azureml"))
       :: map GetMTime entries).
Proof.
  cbn zeta.
  destruct (notebook_run outside s)
    as (r & tr & Hrun & [(ex & -> & -> & ->) | (run & s' & -> & -> & ->)]).
  - split; [| discriminate].
    inversion Hrun; subst; cbn; eexists; reflexivity.
  - split.
    + unfold sdk_calls. rewrite omap_app.
      destruct (sdk_calls_view_results outside s' run) as [rest Hrest].
      inversion Hrun; subst. cbn [omap list_omap sdk_call_of print_workspace submit_call].
      unfold sdk_calls in Hrest.
      exists rest. unfold sdk_call_sequence. cbn [app]. rewrite Hrest. reflexivity.
    + intros Hok.
      destruct (fs_calls_view_results outside s' run Hok)
        as (names & entries & Hne & Hin & Hit & Hcalls).
      exists names, entries. split; [exact Hne |].
      split; [apply in_or_app; right; exact Hin |].
      split; [apply in_or_app; right; exact Hit |].
      unfold fs_calls in *. rewrite omap_app, Hcalls.
      inversion Hrun; subst. reflexivity.
Qed.

Lemma C5_witness :
  exists names entries,
    names <> [] /\
    In (Entry (Os_listdir (os.path.join "output" "azureml")) (Ok names))
       (trace Sample.healthy nb.notebook Sample.start) /\
    In (Entry (Path_iterdir (pathlib.of_string (os.path.join "output" "azureml")))
              (Ok entries))
       (trace Sample.healthy nb.notebook Sample.start) /\
    fs_calls (trace Sample.healthy nb.notebook Sample.start)
    = ListDir (os.path.join "output" "azureml")
      :: IterDir (pathlib.of_string (os.path.join "output" "azureml"))
      :: map GetMTime entries.
Proof.
  apply (proj2 (C5_platform_calls_then_local_filesystem
                  (Sample.outside [step_run_handle 1] Sample.download_here) Sample.start)).
  reflexivity.
Defined.

(** ** Reading the predictions (cell 7.2) *)


Lemma set_nth_length (i : nat) (v : pandas.cell) (r : list pandas.cell) :
  length (pandas.set_nth i v r) = length r.
Proof.
  revert r. induction i as [| i IH]; intros [| c r]; simpl; try reflexivity.
  rewrite IH. reflexivity.
Qed.

Lemma zip_with_set_nth (i : nat) (vs : list pandas.cell) (rs : list (list pandas.cell)) (w : nat) :
  length vs = length rs -> Forall (fun r => length r = w) rs ->
  length (pandas.zip_with (pandas.set_nth i) vs rs) = length rs /\
  Forall (fun r => length r = w) (pandas.zip_with (pandas.set_nth i) vs rs).
Proof.
  revert vs. induction rs as [| r rs IH]; intros [| v vs] Hlen Hrows; try discriminate Hlen.
  - split; constructor.
  - inversion Hrows; subst. injection Hlen as Hlen.
    destruct (IH vs Hlen) as [IH1 IH2]; [assumption |].
    cbn [pandas.zip_with length]. split; [rewrite IH1; reflexivity |].
    constructor; [apply set_nth_length | exact IH2].
Qed.

Lemma getitem_week_starting (rs : list (list pandas.cell)) :
  pandas.getitem {| pandas.columns := nb.prediction_columns; pandas.rows := rs |}
                 (pandas.LStr "WeekStarting")
  = Ok (map (fun r => nth 0 r pandas.CNaN) rs).
Proof. reflexivity. Qed.

Lemma setitem_week_starting (rs : list (list pandas.cell)) (vs : list pandas.cell) :
  length vs = length rs ->
  pandas.setitem {| pandas.columns := nb.prediction_columns; pandas.rows := rs |}
                 (pandas.LStr "WeekStarting") vs
  = Ok {| pandas.columns := nb.prediction_columns;
          pandas.rows := pandas.zip_with (pandas.set_nth 0) vs rs |}.
Proof.
  intros Hlen. unfold pandas.setitem. cbn [pandas.rows pandas.columns].
  rewrite Hlen, Nat.eqb_refl. reflexivity.
Qed.









(** * Further properties of the notebook *)

(** ** What is submitted, and from what *)

Lemma after_submit_answers (c : entry) :
  entry_sat after_submit c = true ->
  workspace_found c = None /\ dataset_found c = None /\
  registered c = None /\ submitted_run c = None.
Proof.
  destruct c as [X e r]. destruct e; simpl; intros H; try discriminate H; auto.
Qed.

Lemma view_results_answers {C} (outside : handler (C * FileSystem))
    (run : PipelineRun) (s : C * FileSystem) :
  workspaces_found (trace (world outside) (nb.view_results run) s) = [] /\
  datasets_found (trace (world outside) (nb.view_results run) s) = [] /\
  registered_datastores (trace (world outside) (nb.view_results run) s) = [] /\
  submitted_runs (trace (world outside) (nb.view_results run) s) = [].
Proof.
  pose proof (calls_only_trace after_submit (world outside) _ s
                (view_results_after_submit run)) as H.
  repeat split; apply omap_all_None; (eapply Forall_impl; [exact H |]);
    intros c Hc; apply after_submit_answers in Hc; tauto.
Qed.

(** Either nothing is submitted, or one pipeline is, built from the answers
    of the platform in this run. *)
Lemma notebook_submission {C} (outside : handler (C * FileSystem)) (s : C * FileSystem) :
  let tr := trace (world outside) nb.notebook s in
  submissions tr = [] \/
  exists ws dstore small_dataset output_dstore,
    workspaces_found tr = [ws] /\
    default_datastores tr = [(ws, dstore)] /\
    datasets_found tr = [small_dataset] /\
    registered_datastores tr = [output_dstore] /\
    registrations tr = [nb.register_predictions ws dstore] /\
    submissions tr =
      [(Experiment.mk ws "forecasting_pipeline",
        nb.pipeline ws dstore
          (DatasetConsumptionConfig.mk "forecast_10_models" small_dataset)
          (DataReference.mk output_dstore),
        nb.tags)].
Proof.
  cbn zeta.
  destruct (notebook_run outside s)
    as (r & tr & Hrun & [(ex & -> & -> & _) | (run & s' & -> & -> & _)]).
  - inversion Hrun; subst; try (left; reflexivity).
    right. do 4 eexists. repeat split; reflexivity.
  - destruct (view_results_trace outside run s') as (Hsub & Hreg & Hds).
    destruct (view_results_answers outside run s') as (Hws & Hdat & Hrd & _).
    unfold submissions, registrations, default_datastores, workspaces_found,
      datasets_found, registered_datastores in *.
    rewrite !omap_app, Hsub, Hreg, Hds, Hws, Hdat, Hrd.
    inversion Hrun; subst. right. do 4 eexists. repeat split; reflexivity.
Qed.

(** X1: the tags sent with a submission record the configuration of the
    parallel run: exactly the three keys node_count, process_count_per_node
    and timeout, with the values node_count, process_count_per_node and
    run_invocation_timeout of the ParallelRunConfig of the submitted
    pipeline. *)
Theorem X1_tags_record_the_configuration {C} (outside : handler (C * FileSystem))
    (s : C * FileSystem) :
  Forall (fun sub =>
            let tags := snd sub in
            dom tags = ({["node_count"; "process_count_per_node"; "timeout"]} : gset string) /\
            Forall (fun cfg =>
                      tags !! "node_count" = Some (ParallelRunConfig.node_count cfg) /\
                      tags !! "process_count_per_node"
                        = Some (ParallelRunConfig.process_count_per_node cfg) /\
                      tags !! "timeout" = Some (ParallelRunConfig.run_invocation_timeout cfg))
                   (parallel_run_configs (snd (fst sub))))
         (submissions (trace (world outside) nb.notebook s)).
Proof.
  destruct (notebook_submission outside s)
    as [-> | (ws & dstore & ds & out & _ & _ & _ & _ & _ & ->)]; [constructor |].
  constructor; [| constructor]. cbn [snd fst]. split.
  - unfold nb.tags. rewrite !dom_insert_L, dom_empty_L. set_solver.
  - cbn. constructor; [| constructor]. repeat split.
Qed.

(** X2: in a submitted pipeline the copy step consumes what the forecasting
    step produces: the output of the forecasting step is the PipelineData
    'forecasting_output' on the default datastore this run got, and that same
    PipelineData is an input of the copy step and the value of its
    --parallel_run_step_output argument. *)
Theorem X2_copy_step_consumes_forecasting_output {C} (outside : handler (C * FileSystem))
    (s : C * FileSystem) :
  let tr := trace (world outside) nb.notebook s in
  Forall (fun sub =>
            exists ws dstore f c,
              default_datastores tr = [(ws, dstore)] /\
              Pipeline.steps (snd (fst sub)) = [StepParallelRun f; StepPythonScript c] /\
              ParallelRunStep.output f = PipelineData.mk "forecasting_output" dstore /\
              In (ArgPipelineData (ParallelRunStep.output f)) (PythonScriptStep.inputs c) /\
              exists before after,
                PythonScriptStep.arguments c
                = (before ++ ArgStr "--parallel_run_step_output"
                          :: ArgPipelineData (ParallelRunStep.output f) :: after)%list)
         (submissions tr).
Proof.
  cbn zeta.
  destruct (notebook_submission outside s)
    as [-> | (ws & dstore & ds & out & _ & Hds & _ & _ & _ & ->)]; [constructor |].
  constructor; [| constructor]. cbn [snd fst].
  exists ws, dstore. do 2 eexists. split; [exact Hds |]. split; [reflexivity |].
  split; [reflexivity |]. split; [cbn; auto |].
  exists [], [ArgStr "--output_dir"; ArgDataReference (DataReference.mk out)]. reflexivity.
Qed.

(** X3: a submitted pipeline reads the dataset and writes to the datastore
    the platform answered with in this run: the only input of the forecasting
    step is the dataset found under 'oj_data_small', named
    'forecast_10_models', and the --output_dir of the copy step is a reference
    to the datastore the registration of 'predictions' returned. *)
Theorem X3_pipeline_uses_the_answers_of_the_run {C} (outside : handler (C * FileSystem))
    (s : C * FileSystem) :
  let tr := trace (world outside) nb.notebook s in
  Forall (fun sub =>
            exists small_dataset output_dstore f c,
              datasets_found tr = [small_dataset] /\
              registered_datastores tr = [output_dstore] /\
              Pipeline.steps (snd (fst sub)) = [StepParallelRun f; StepPythonScript c] /\
              ParallelRunStep.inputs f
              = [DatasetConsumptionConfig.mk "forecast_10_models" small_dataset] /\
              In (ArgDataReference (DataReference.mk output_dstore))
                 (PythonScriptStep.inputs c) /\
              exists before after,
                PythonScriptStep.arguments c
                = (before ++ ArgStr "--output_dir"
                          :: ArgDataReference (DataReference.mk output_dstore) :: after)%list)
         (submissions tr).
Proof.
  cbn zeta.
  destruct (notebook_submission outside s)
    as [-> | (ws & dstore & ds & out & _ & _ & Hdat & Hreg & _ & ->)]; [constructor |].
  constructor; [| constructor]. cbn [snd fst].
  exists ds, out. do 2 eexists. split; [exact Hdat |]. split; [exact Hreg |].
  split; [reflexivity |]. split; [reflexivity |]. split; [cbn; auto |].
  exists [ArgStr "--parallel_run_step_output"; ArgPipelineData (nb.output_dir dstore)], [].
  reflexivity.
Qed.

(** X4: everything a run of the notebook sends to the platform belongs to the
    one workspace Workspace.from_config returned: the registration of
    'predictions', the experiment, the pipeline, and the compute target
    'cpucluster' of both steps, which both run scripts of ./scripts with
    allow_reuse=False. *)
Theorem X4_one_workspace_throughout {C} (outside : handler (C * FileSystem))
    (s : C * FileSystem) :
  let tr := trace (world outside) nb.notebook s in
  Forall (fun a => workspaces_found tr = [RegisterBlobContainer.workspace a])
         (registrations tr) /\
  Forall (fun sub =>
            exists ws f c,
              workspaces_found tr = [ws] /\
              Experiment.workspace (fst (fst sub)) = ws /\
              Pipeline.workspace (snd (fst sub)) = ws /\
              Pipeline.steps (snd (fst sub)) = [StepParallelRun f; StepPythonScript c] /\
              ParallelRunConfig.compute_target (ParallelRunStep.parallel_run_config f)
                = AmlCompute.mk ws "cpucluster" /\
              PythonScriptStep.compute_target c = AmlCompute.mk ws "cpucluster" /\
              ParallelRunConfig.source_directory (ParallelRunStep.parallel_run_config f)
                = PythonScriptStep.source_directory c /\
              ParallelRunStep.allow_reuse f = false /\
              PythonScriptStep.allow_reuse c = false)
         (submissions tr).
Proof.
  cbn zeta. split.
  - destruct (notebook_run outside s)
      as (r & tr & Hrun & [(ex & -> & -> & _) | (run & s' & -> & -> & _)]).
    + inversion Hrun; subst; cbn; repeat constructor.
    + destruct (view_results_trace outside run s') as (_ & Hreg & _).
      destruct (view_results_answers outside run s') as (Hws & _).
      unfold registrations, workspaces_found in *. rewrite !omap_app, Hreg, Hws.
      inversion Hrun; subst. cbn. repeat constructor.
  - destruct (notebook_submission outside s)
      as [-> | (ws & dstore & ds & out & Hws & _ & _ & _ & _ & ->)]; [constructor |].
    constructor; [| constructor]. cbn [snd fst].
    exists ws. do 2 eexists. split; [exact Hws |]. repeat split.
Qed.

(** X17: the configuration of the parallel run goes to the platform as the
    notebook sets it.  A run that completes has submitted exactly one
    pipeline; and every pipeline submitted has exactly one ParallelRunConfig,
    constructed with error_threshold=10, process_count_per_node=8,
    node_count=5, mini_batch_size='1' and run_invocation_timeout=180. *)
Theorem X17_submitted_parallel_run_configuration {C} (outside : handler (C * FileSystem))
    (s : C * FileSystem) :
  let tr := trace (world outside) nb.notebook s in
  (is_ok (outcome (world outside) nb.notebook s) = true ->
   exists sub, submissions tr = [sub]) /\
  Forall (fun sub =>
            exists cfg,
              parallel_run_configs (snd (fst sub)) = [cfg] /\
              ParallelRunConfig.error_threshold cfg = 10 /\
              ParallelRunConfig.process_count_per_node cfg = 8 /\
              ParallelRunConfig.node_count cfg = 5 /\
              ParallelRunConfig.mini_batch_size cfg = "1" /\
              ParallelRunConfig.run_invocation_timeout cfg = 180)
         (submissions tr).
Proof.
  cbn zeta.
  destruct (notebook_run outside s)
    as (r & tr & Hrun & [(ex & -> & -> & ->) | (run & s' & -> & -> & ->)]).
  - split; [discriminate |].
    inversion Hrun; subst; cbn; repeat constructor.
    eexists. repeat split.
  - destruct (view_results_trace outside run s') as (Hsub & _ & _).
    unfold submissions in *. rewrite omap_app, Hsub.
    inversion Hrun; subst. cbn [omap list_omap submission submit_call print_workspace app].
    split; [intros _; eexists; reflexivity |].
    constructor; [| constructor]. eexists. repeat split.
Qed.

Lemma X17_witness :
  exists sub, submissions (trace Sample.healthy nb.notebook Sample.start) = [sub].
Proof.
  apply (proj1 (X17_submitted_parallel_run_configuration
                  (Sample.outside [step_run_handle 1] Sample.download_here) Sample.start)).
  reflexivity.
Defined.

(** ** The run that is viewed *)

Lemma Forall_omap_Some {A B} (f : A -> option B) (P : B -> Prop) (l : list A) :
  Forall (fun a => forall b, f a = Some b -> P b) l -> Forall P (omap f l).
Proof.
  induction 1 as [| a l Ha _ IH]; [constructor |].
  cbn. destruct (f a) as [b |] eqn:Hb; [| exact IH].
  constructor; [apply Ha; reflexivity | exact IH].
Qed.

Lemma view_results_views_run (run : PipelineRun) :
  calls_only (views_run run) (nb.view_results run).
Proof.
  destruct run as [id].
  unfold nb.view_results, nb.download_predictions, nb.read_predictions,
    nb.plot_by_brand, nb.plot_over_time, nb.plot_store.
  repeat first
    [ apply calls_only_Ret
    | apply calls_only_Throw
    | apply calls_only_Vis; [cbn; rewrite ?N.eqb_refl; reflexivity | intros ?]
    | apply calls_only_lift
    | apply calls_only_for_each; intros ?
    | apply calls_only_bind; [| intros ?] ].
Qed.

Lemma views_run_entry (run : PipelineRun) (c : entry) :
  entry_sat (views_run run) c = true ->
  (forall l, step_lookup c = Some l -> l = (run, "many-models-forecasting")) /\
  (forall n, output_lookup c = Some n -> n = "forecasting_output").
Proof.
  destruct c as [X e r]. destruct e; simpl; intros H; split; intros l Hl;
    try discriminate Hl; injection Hl as <-.
  - apply andb_prop in H. destruct H as [Hr Hn].
    apply String.eqb_eq in Hn. subst name.
    destruct r0 as [i], run as [j]. apply N.eqb_eq in Hr. subst. reflexivity.
  - apply String.eqb_eq in H. exact H.
Qed.

Lemma view_results_lookups {C} (outside : handler (C * FileSystem))
    (run : PipelineRun) (s : C * FileSystem) :
  Forall (fun l => l = (run, "many-models-forecasting"))
         (step_lookups (trace (world outside) (nb.view_results run) s)) /\
  Forall (fun n => n = "forecasting_output")
         (output_lookups (trace (world outside) (nb.view_results run) s)).
Proof.
  pose proof (calls_only_trace (views_run run) (world outside) _ s
                (view_results_views_run run)) as H.
  split; apply Forall_omap_Some; (eapply Forall_impl; [exact H |]);
    intros c Hc; apply views_run_entry in Hc; tauto.
Qed.

(** X5: what the notebook views is what it submitted.  A step run is looked
    up only on the run the submission returned, and by the name of the
    forecasting step of the submitted pipeline; an output is asked for only
    by the name of the PipelineData that step writes. *)
Theorem X5_results_viewed_are_those_submitted {C} (outside : handler (C * FileSystem))
    (s : C * FileSystem) :
  let tr := trace (world outside) nb.notebook s in
  Forall (fun lookup =>
            exists sub f rest,
              submitted_runs tr = [fst lookup] /\
              submissions tr = [sub] /\
              Pipeline.steps (snd (fst sub)) = StepParallelRun f :: rest /\
              snd lookup = ParallelRunStep.name f)
         (step_lookups tr) /\
  Forall (fun name =>
            exists sub f rest,
              submissions tr = [sub] /\
              Pipeline.steps (snd (fst sub)) = StepParallelRun f :: rest /\
              name = PipelineData.name (ParallelRunStep.output f))
         (output_lookups tr).
Proof.
  cbn zeta.
  destruct (notebook_run outside s)
    as (r & tr & Hrun & [(ex & -> & -> & _) | (run & s' & -> & -> & _)]).
  - inversion Hrun; subst; cbn; split; constructor.
  - destruct (view_results_trace outside run s') as (Hsub & _ & _).
    destruct (view_results_answers outside run s') as (_ & _ & _ & Hruns).
    destruct (view_results_lookups outside run s') as (Hsteps & Houts).
    unfold submissions, submitted_runs, step_lookups, output_lookups in *.
    rewrite !omap_app, Hsub, Hruns.
    inversion Hrun; subst. cbn [omap list_omap step_lookup output_lookup submission
      submitted_run print_workspace submit_call app].
    split.
    + eapply Forall_impl; [exact Hsteps |]. intros l ->.
      do 3 eexists. repeat split.
    + eapply Forall_impl; [exact Houts |]. intros n ->.
      do 3 eexists. repeat split.
Qed.

(** ** More on download_predictions *)

(** X6: called without a target directory (target_dir=None, the default),
    [download_predictions] never returns a path; when the platform's calls go
    through, the download has been requested with local_path None and the
    call then raises TypeError at [os.path.join(None, 'azureml')]. *)
Theorem X6_download_predictions_without_target_dir {C} (outside : handler (C * FileSystem))
    (s : C * FileSystem) (run : PipelineRun) :
  is_ok (outcome (world outside) (nb.download_predictions run None) s) = false /\
  (forall stitch_run others port_data s1 s2 s3,
      outside _ (PipelineRun_find_step_run run "many-models-forecasting") s
        = (Ok (stitch_run :: others), s1) ->
      outside _ (StepRun_get_output_data stitch_run "forecasting_output") s1
        = (Ok port_data, s2) ->
      outside _ (PortDataReference_download port_data None true true) s2 = (Ok tt, s3) ->
      outcome (world outside) (nb.download_predictions run None) s = Raise TypeError /\
      downloads (trace (world outside) (nb.download_predictions run None) s)
        = [(port_data, None)] /\
      final (world outside) (nb.download_predictions run None) s = s3).
Proof.
  split.
  - destruct (outcome (world outside) (nb.download_predictions run None) s) as [p |] eqn:Hp;
      [| reflexivity].
    destruct (download_predictions_Ok outside s run None p Hp) as (dir & _ & _ & Hdir & _).
    discriminate Hdir.
  - intros stitch_run others port_data s1 s2 s3 H1 H2 H3.
    unfold outcome, trace, final, nb.download_predictions.
    cbn [bind call exec world lift]. rewrite H1, getitem_first.
    cbn [bind call exec world lift]. rewrite H2.
    cbn [bind call exec world lift]. rewrite H3.
    cbn. repeat split.
Qed.

Lemma X6_witness :
  outcome Sample.healthy (nb.download_predictions (run_handle 1) None) Sample.start
    = Raise TypeError /\
  downloads (trace Sample.healthy (nb.download_predictions (run_handle 1) None) Sample.start)
    = [(port_data_handle 1, None)] /\
  final Sample.healthy (nb.download_predictions (run_handle 1) None) Sample.start
    = Sample.start.
Proof.
  apply (proj2 (X6_download_predictions_without_target_dir
                  (Sample.outside [step_run_handle 1] Sample.download_here)
                  Sample.start (run_handle 1))
               (step_run_handle 1) [] (port_data_handle 1)
               Sample.start Sample.start Sample.start);
    reflexivity.
Defined.

(** Where the last element of a sorted list stood before sorting: no
    earlier element has a greater key, and every later one has a smaller
    key. *)
Lemma sorted_last_position {A} (key : A -> Z) (l : list A) (z : A) :
  last (builtins.sorted key l) = Some z ->
  exists l1 l2, l = (l1 ++ z :: l2)%list /\
                Forall (fun y => key y <= key z) l1 /\
                Forall (fun y => key y < key z) l2.
Proof.
  revert z. induction l as [| x l IH]; intros z Hz; [discriminate Hz |].
  change (builtins.sorted key (x :: l))
    with (builtins.insert_by key x (builtins.sorted key l)) in Hz.
  rewrite last_insert_by in Hz by apply sorted_ascending.
  destruct (last (builtins.sorted key l)) as [w |] eqn:Hw.
  - destruct (key x <=? key w) eqn:Hxw; injection Hz as <-.
    + destruct (IH w eq_refl) as (l1 & l2 & -> & H1 & H2).
      exists (x :: l1), l2. split; [reflexivity |]. split; [| exact H2].
      constructor; [apply Z.leb_le; exact Hxw | exact H1].
    + apply Z.leb_gt in Hxw. destruct (sorted_last_max key l w Hw) as [_ Hmax].
      exists [], l. split; [reflexivity |]. split; [constructor |].
      eapply Forall_impl; [exact Hmax |]. cbn. intros; lia.
  - injection Hz as <-. apply last_None in Hw.
    assert (l = []) as ->.
    { destruct l as [| y l]; [reflexivity |].
      exfalso. revert Hw. apply sorted_nonempty. discriminate. }
    exists [], []. repeat split; constructor.
Qed.

(** X7: among the entries of target_dir/azureml with the latest modification
    time, [download_predictions] returns the one enumerated last: in the
    listing, no entry before the returned one is later, and every entry after
    it is strictly earlier. *)
Theorem X7_download_predictions_last_of_the_latest {C} (outside : handler (C * FileSystem))
    (s : C * FileSystem) (run : PipelineRun) (target_dir : option string) (p : string) :
  outcome (world outside) (nb.download_predictions run target_dir) s = Ok p ->
  exists dir before latest after,
    let fs := snd (final (world outside) (nb.download_predictions run target_dir) s) in
    let az := pathlib.of_string (os.path.join dir "azureml") in
    target_dir = Some dir /\
    listdir fs (os.path.join dir "azureml") = Ok (before ++ latest :: after)%list /\
    Forall (fun n => mtime_of fs (pathlib.child az n) <= mtime_of fs (pathlib.child az latest))
           before /\
    Forall (fun n => mtime_of fs (pathlib.child az n) < mtime_of fs (pathlib.child az latest))
           after /\
    p = os.path.join (pathlib.to_string (pathlib.child az latest)) "forecasting_output".
Proof.
  intros Hp.
  destruct (download_predictions_Ok outside s run target_dir p Hp)
    as (dir & port_data & s3 & -> & Hdl & Hout & Hfin).
  destruct (latest_output_Ok _ _ _ Hout) as (names & e & Hnames & Hne & _ & Hlast & ->).
  destruct (sorted_last_position _ _ _ Hlast) as (l1 & l2 & Hsplit & H1 & H2).
  unfold entries_of in Hsplit.
  apply map_eq_app in Hsplit. destruct Hsplit as (before & rest & -> & <- & Hrest).
  apply map_eq_cons in Hrest. destruct Hrest as (latest & after & -> & <- & <-).
  exists dir, before, latest, after. rewrite Hfin. cbn zeta.
  rewrite Forall_map in H1, H2. repeat split; assumption.
Qed.

Lemma X7_witness :
  exists dir before latest after,
    let fs := Sample.two_runs ["run-a"; "run-b"] 5 5 in
    let az := pathlib.of_string (os.path.join dir "azureml") in
    Some "output" = Some dir /\
    listdir fs (os.path.join dir "azureml") = Ok (before ++ latest :: after)%list /\
    Forall (fun n => mtime_of fs (pathlib.child az n) <= mtime_of fs (pathlib.child az latest))
           before /\
    Forall (fun n => mtime_of fs (pathlib.child az n) < mtime_of fs (pathlib.child az latest))
           after /\
    "output/azureml/run-b/forecasting_output"
      = os.path.join (pathlib.to_string (pathlib.child az latest)) "forecasting_output".
Proof.
  apply (X7_download_predictions_last_of_the_latest
           (Sample.outside [step_run_handle 1]
                           (fun _ _ => Sample.two_runs ["run-a"; "run-b"] 5 5))
           Sample.start (run_handle 1) (Some "output")).
  reflexivity.
Defined.

(** X8: when, after the download, one entry of target_dir/azureml has a
    modification time strictly later than every other entry, and every entry
    has a modification time, [download_predictions] returns that entry joined
    with 'forecasting_output', wherever it stands in the listing; an older
    download left in the directory is returned instead of the new one exactly
    when it is the later one. *)
Theorem X8_download_predictions_returns_the_unique_latest {C}
    (outside : handler (C * FileSystem)) (s : C * FileSystem) (run : PipelineRun)
    (dir : string) (port_data : PortDataReference) (s3 : C * FileSystem)
    (names : list string) (latest : string) :
  let az := pathlib.of_string (os.path.join dir "azureml") in
  downloads_to outside s run dir port_data s3 ->
  listdir (snd s3) (os.path.join dir "azureml") = Ok names ->
  Forall (fun e => is_ok (getmtime (snd s3) e) = true) (entries_of dir names) ->
  In latest names ->
  (forall n, In n names ->
     n = latest \/
     mtime_of (snd s3) (pathlib.child az n) < mtime_of (snd s3) (pathlib.child az latest)) ->
  outcome (world outside) (nb.download_predictions run (Some dir)) s
  = Ok (os.path.join (pathlib.to_string (pathlib.child az latest)) "forecasting_output").
Proof.
  intros az Hdl Hnames Hall Hin Hmax.
  rewrite (download_predictions_outcome outside s run dir port_data s3 Hdl).
  rewrite (latest_output_unique_latest (snd s3) dir names latest Hnames Hin Hmax).
  replace (forallb _ (entries_of dir names)) with true; [reflexivity |].
  symmetry. apply forallb_forall. intros e He.
  rewrite Forall_forall in Hall. apply Hall. apply list_elem_of_In. exact He.
Qed.

Lemma X8_witness :
  outcome (Sample.leaving (Sample.two_runs ["run-a"; "run-b"] 9 6))
          (nb.download_predictions (run_handle 1) (Some "output")) Sample.start
  = Ok (os.path.join
          (pathlib.to_string
             (pathlib.child (pathlib.of_string (os.path.join "output" "azureml")) "run-a"))
          "forecasting_output").
Proof.
  apply (X8_download_predictions_returns_the_unique_latest
           (Sample.outside [step_run_handle 1]
                           (fun _ _ => Sample.two_runs ["run-a"; "run-b"] 9 6))
           Sample.start (run_handle 1) "output" (port_data_handle 1)
           (tt, Sample.two_runs ["run-a"; "run-b"] 9 6) ["run-a"; "run-b"] "run-a").
  - exists (step_run_handle 1), [], Sample.start, Sample.start. repeat split; reflexivity.
  - reflexivity.
  - repeat constructor.
  - simpl. auto.
  - intros n [<- | [<- | []]]; [left; reflexivity | right].
    vm_compute. reflexivity.
Defined.

(** ** More on cell 7.2 *)

Lemma pad_length (w : nat) (l : list pandas.cell) : length (pandas.pad w l) = w.
Proof.
  revert l. induction w as [| w IH]; intros [| c l]; simpl; try reflexivity;
    rewrite IH; reflexivity.
Qed.

Lemma parse_rows_Ok (sep : ascii) (w : nat) (ls : list string) (rs : list (list pandas.cell)) :
  pandas.parse_rows sep w ls = Ok rs ->
  Forall (fun l => (length (split_on sep l) <= w)%nat) ls /\
  length rs = length ls /\
  Forall (fun r => length r = w) rs.
Proof.
  revert rs. induction ls as [| l ls IH]; intros rs H; cbn [pandas.parse_rows] in H.
  - injection H as <-. repeat split; constructor.
  - destruct (w <? length (split_on sep l))%nat eqn:Hw; [discriminate H |].
    destruct (pandas.parse_rows sep w ls) as [rs' |]; [| discriminate H].
    injection H as <-. destruct (IH rs' eq_refl) as (H1 & H2 & H3).
    apply Nat.ltb_ge in Hw. repeat split.
    + constructor; assumption.
    + cbn [length]. rewrite H2. reflexivity.
    + constructor; [apply pad_length | exact H3].
Qed.

Lemma parse_rows_longer (sep : ascii) (w : nat) (ls : list string) :
  Exists (fun l => (w < length (split_on sep l))%nat) ls ->
  pandas.parse_rows sep w ls = Raise ParserError.
Proof.
  induction 1 as [l ls Hl | l ls _ IH]; cbn [pandas.parse_rows].
  - apply Nat.ltb_lt in Hl. rewrite Hl. reflexivity.
  - destruct (w <? length (split_on sep l))%nat; [reflexivity |].
    rewrite IH. reflexivity.
Qed.

Lemma parse_rows_fits (sep : ascii) (w : nat) (ls : list string) :
  Forall (fun l => (length (split_on sep l) <= w)%nat) ls ->
  exists rs, pandas.parse_rows sep w ls = Ok rs.
Proof.
  induction 1 as [| l ls Hl _ [rs IH]]; [exists []; reflexivity |].
  cbn [pandas.parse_rows]. apply Nat.ltb_ge in Hl. rewrite Hl, IH. eauto.
Qed.

(** X9: cell 7.2 yields a dataframe from a file of plain text (made only of
    spaces, line feeds and printable ASCII characters other than the double
    quote) only if the first record of the file has exactly four
    space-separated fields and no record has more; the dataframe then has the
    columns WeekStarting, Predictions, Store, Brand, one row per record (blank
    lines apart) and four cells in every row. *)
Theorem X9_read_predictions_needs_four_fields {C} (outside : handler (C * FileSystem))
    (s : C * FileSystem) (file_path text : string) (df : pandas.DataFrame) :
  read_text (snd s) (file_path +:+ "/parallel_run_step.txt") = Ok text ->
  pandas.plain_text text = true ->
  outcome (world outside) (nb.read_predictions file_path) s = Ok df ->
  exists first rest,
    pandas.records text = first :: rest /\
    length (split_on " " first) = 4%nat /\
    Forall (fun l => (length (split_on " " l) <= 4)%nat) (pandas.records text) /\
    pandas.columns df = nb.prediction_columns /\
    length (pandas.rows df) = length (pandas.records text) /\
    Forall (fun r => length r = 4%nat) (pandas.rows df).
Proof.
  intros Hread _.
  unfold outcome, nb.read_predictions. cbn [bind call exec world lift].
  rewrite Hread.
  unfold pandas.read_csv_text.
  destruct (pandas.records text) as [| first rest] eqn:Hrec; [discriminate |].
  destruct (pandas.parse_rows " " (length (split_on " " first)) (first :: rest))
    as [rs |] eqn:Hrows; [| discriminate].
  cbn [bind call exec world lift]. unfold pandas.set_columns.
  cbn [pandas.columns pandas.rows]. rewrite length_map, length_seq.
  destruct (length nb.prediction_columns =? length (split_on " " first))%nat eqn:Hw;
    [| discriminate].
  apply Nat.eqb_eq in Hw. cbn in Hw. rewrite <- Hw in Hrows.
  destruct (parse_rows_Ok _ _ _ _ Hrows) as (Hfit & Hlen & Hfour).
  cbn [bind call exec world lift]. rewrite getitem_week_starting.
  cbn [bind call exec world lift].
  destruct (outside _ (Pd_to_datetime (map (fun r => nth 0 r pandas.CNaN) rs)) s)
    as [[stamps |] s']; [| discriminate].
  destruct (Nat.eq_dec (length (map pandas.date stamps)) (length rs)) as [Hst | Hst].
  - rewrite setitem_week_starting by exact Hst.
    cbn [bind call exec world lift fst]. intros [= <-]. cbn [pandas.columns pandas.rows].
    destruct (zip_with_set_nth 0 (map pandas.date stamps) rs 4 Hst Hfour) as [Hl Hr].
    exists first, rest.
    split; [reflexivity |]. split; [symmetry; exact Hw |].
    split; [exact Hfit |]. split; [reflexivity |].
    split; [etransitivity; [exact Hl | exact Hlen] | exact Hr].
  - unfold pandas.setitem. cbn [pandas.columns pandas.rows].
    apply Nat.eqb_neq in Hst. rewrite Hst. cbn [negb bind call exec world lift fst].
    discriminate.
Qed.

Lemma X9_witness :
  exists df,
    outcome Sample.healthy (nb.read_predictions "out") Sample.same_week = Ok df /\
    exists first rest,
      pandas.records Sample.same_week_text = first :: rest /\
      length (split_on " " first) = 4%nat /\
      Forall (fun l => (length (split_on " " l) <= 4)%nat)
             (pandas.records Sample.same_week_text) /\
      pandas.columns df = nb.prediction_columns /\
      length (pandas.rows df) = length (pandas.records Sample.same_week_text) /\
      Forall (fun r => length r = 4%nat) (pandas.rows df).
Proof.
  eexists. split; [vm_compute; reflexivity |].
  apply (X9_read_predictions_needs_four_fields
           (Sample.outside [step_run_handle 1] Sample.download_here)
           Sample.same_week "out" Sample.same_week_text);
    vm_compute; reflexivity.
Defined.

(** X10: how cell 7.2 fails on a file it cannot use, before pandas is
    asked to convert any date: the error of reading the file is raised as it
    is; and for a file of plain text (made only of spaces, line feeds and
    printable ASCII characters other than the double quote), a file without
    records raises EmptyDataError; a
    record with more fields than the first raises ParserError; and a file
    whose first record does not have four fields, no record having more than
    the first, raises ValueError at the assignment of the four column
    names. *)
Theorem X10_read_predictions_failures {C} (outside : handler (C * FileSystem))
    (s : C * FileSystem) (file_path : string) :
  let cell := nb.read_predictions file_path in
  let file := read_text (snd s) (file_path +:+ "/parallel_run_step.txt") in
  (forall ex, file = Raise ex ->
     outcome (world outside) cell s = Raise ex /\
     datetime_calls (trace (world outside) cell s) = []) /\
  (forall text, file = Ok text -> pandas.plain_text text = true ->
     pandas.records text = [] ->
     outcome (world outside) cell s = Raise EmptyDataError /\
     datetime_calls (trace (world outside) cell s) = []) /\
  (forall text first rest, file = Ok text -> pandas.plain_text text = true ->
     pandas.records text = first :: rest ->
     Exists (fun l => (length (split_on " " first) < length (split_on " " l))%nat) rest ->
     outcome (world outside) cell s = Raise ParserError /\
     datetime_calls (trace (world outside) cell s) = []) /\
  (forall text first rest, file = Ok text -> pandas.plain_text text = true ->
     pandas.records text = first :: rest ->
     Forall (fun l => (length (split_on " " l) <= length (split_on " " first))%nat) rest ->
     length (split_on " " first) <> 4%nat ->
     outcome (world outside) cell s = Raise ValueError /\
     datetime_calls (trace (world outside) cell s) = []).
Proof.
  cbn zeta. unfold outcome, trace, nb.read_predictions.
  cbn [bind call exec world lift].
  split; [| split; [| split]].
  - intros ex ->. split; reflexivity.
  - intros text -> _ Hrec. unfold pandas.read_csv_text. rewrite Hrec. split; reflexivity.
  - intros text first rest -> _ Hrec Hlong. unfold pandas.read_csv_text. rewrite Hrec.
    rewrite parse_rows_longer by (apply Exists_cons_tl; exact Hlong).
    split; reflexivity.
  - intros text first rest -> _ Hrec Hfit Hw. unfold pandas.read_csv_text. rewrite Hrec.
    destruct (parse_rows_fits " " (length (split_on " " first)) (first :: rest))
      as [rs ->]; [constructor; [lia | exact Hfit] |].
    cbn [bind call exec world lift]. unfold pandas.set_columns.
    cbn [pandas.columns]. rewrite length_map, length_seq.
    replace (length nb.prediction_columns =? length (split_on " " first))%nat with false.
    + split; reflexivity.
    + symmetry. apply Nat.eqb_neq. cbn. congruence.
Qed.

Lemma X10_witness :
  (outcome Sample.healthy (nb.read_predictions "out") Sample.start
     = Raise FileNotFoundError /\
   datetime_calls (trace Sample.healthy (nb.read_predictions "out") Sample.start) = []) /\
  (outcome Sample.healthy (nb.read_predictions "out")
           (tt, {["out/parallel_run_step.txt" := File "" 1]})
     = Raise EmptyDataError /\
   datetime_calls (trace Sample.healthy (nb.read_predictions "out")
                         (tt, {["out/parallel_run_step.txt" := File "" 1]})) = []) /\
  (outcome Sample.healthy (nb.read_predictions "out")
           (tt, {["out/parallel_run_step.txt" :=
                    File ("1992-10-01 7 Store1001" +:+ String pandas.LF
                          "1992-10-08 8 Store1001 tropicana") 1]})
     = Raise ParserError /\
   datetime_calls (trace Sample.healthy (nb.read_predictions "out")
                         (tt, {["out/parallel_run_step.txt" :=
                                  File ("1992-10-01 7 Store1001" +:+ String pandas.LF
                                        "1992-10-08 8 Store1001 tropicana") 1]})) = []) /\
  (outcome Sample.healthy (nb.read_predictions "out")
           (tt, {["out/parallel_run_step.txt" := File "1992-10-01 7 Store1001" 1]})
     = Raise ValueError /\
   datetime_calls (trace Sample.healthy (nb.read_predictions "out")
                         (tt, {["out/parallel_run_step.txt" :=
                                  File "1992-10-01 7 Store1001" 1]})) = []).
Proof.
  split; [| split; [| split]].
  - apply (proj1 (X10_read_predictions_failures
                    (Sample.outside [step_run_handle 1] Sample.download_here)
                    Sample.start "out") FileNotFoundError).
    reflexivity.
  - apply (proj1 (proj2 (X10_read_predictions_failures
                    (Sample.outside [step_run_handle 1] Sample.download_here)
                    (tt, {["out/parallel_run_step.txt" := File "" 1]}) "out")) "");
      reflexivity.
  - apply (proj1 (proj2 (proj2 (X10_read_predictions_failures
                    (Sample.outside [step_run_handle 1] Sample.download_here)
                    (tt, {["out/parallel_run_step.txt" :=
                             File ("1992-10-01 7 Store1001" +:+ String pandas.LF
                                   "1992-10-08 8 Store1001 tropicana") 1]}) "out")))
                 ("1992-10-01 7 Store1001" +:+ String pandas.LF
                  "1992-10-08 8 Store1001 tropicana")
                 "1992-10-01 7 Store1001" ["1992-10-08 8 Store1001 tropicana"]).
    + reflexivity.
    + reflexivity.
    + reflexivity.
    + constructor. vm_compute. lia.
  - apply (proj2 (proj2 (proj2 (X10_read_predictions_failures
                    (Sample.outside [step_run_handle 1] Sample.download_here)
                    (tt, {["out/parallel_run_step.txt" := File "1992-10-01 7 Store1001" 1]})
                    "out")))
                 "1992-10-01 7 Store1001" "1992-10-01 7 Store1001" []).
    + reflexivity.
    + reflexivity.
    + reflexivity.
    + constructor.
    + vm_compute. discriminate.
Defined.

(** ** From cell 7.1 to cells 7.2 and 7.3 *)

Lemma download_predictions_reads_no_csv (run : PipelineRun) (target_dir : option string) :
  calls_only reads_no_csv (nb.download_predictions run target_dir).
Proof. unfold nb.download_predictions. calls_only_tac. Qed.

Lemma reads_no_csv_entry (c : entry) :
  entry_sat reads_no_csv c = true -> csv_read c = None.
Proof. destruct c as [X e r]. destruct e; simpl; intros H; try reflexivity; discriminate H. Qed.

(** X12: the file cell 7.2 reads is the one cell 7.1 points to.  In the
    cells that view a run, pandas reads a file exactly when
    [download_predictions(run, 'output')] has returned a path, once, and the
    file is parallel_run_step.txt under that path, read with a space as
    separator. *)
Theorem X12_reads_the_file_under_the_returned_path {C} (outside : handler (C * FileSystem))
    (s : C * FileSystem) (run : PipelineRun) :
  csv_reads (trace (world outside) (nb.view_results run) s) =
  match outcome (world outside) (nb.download_predictions run (Some "output")) s with
  | Ok file_path => [(file_path +:+ "/parallel_run_step.txt", " "%char)]
  | Raise _ => []
  end.
Proof.
  assert (Hdp : csv_reads (trace (world outside)
                                 (nb.download_predictions run (Some "output")) s) = []).
  { apply omap_all_None. eapply Forall_impl.
    - apply (calls_only_trace reads_no_csv), download_predictions_reads_no_csv.
    - apply reads_no_csv_entry. }
  unfold nb.view_results. rewrite trace_bind.
  destruct (outcome (world outside) (nb.download_predictions run (Some "output")) s)
    as [file_path | ex]; [| exact Hdp].
  unfold csv_reads in *. rewrite omap_app, Hdp. cbn [app].
  unfold nb.read_predictions. cbn [bind call]. rewrite trace_Vis.
  destruct (world outside _ (Pd_read_csv (file_path +:+ "/parallel_run_step.txt") " ") _)
    as [[df | ex] s']; [| reflexivity].
  cbn [omap list_omap csv_read]. f_equal.
  apply omap_all_None. eapply Forall_impl.
  - apply (calls_only_trace reads_no_csv).
    unfold nb.plot_by_brand, nb.plot_over_time, nb.plot_store. calls_only_tac.
  - apply reads_no_csv_entry.
Qed.

(** ** Cells 7.3 *)

Lemma never_throws_raise {S R} (h : handler S) (p : prog R) (s : S) (ex : exn) :
  never_throws p -> outcome h p s = Raise ex ->
  exists c, In c (trace h p s) /\ entry_raised c = Some ex.
Proof.
  intros Hp. revert s. unfold outcome, trace.
  induction Hp as [r | X e k _ IH]; intros s; cbn [exec].
  - discriminate.
  - destruct (h X e s) as [[x | ex'] s'].
    + specialize (IH x s'). destruct (exec h (k x) s') as [[res tr] s''].
      cbn [fst snd] in *. intros Hres. destruct (IH Hres) as (c & Hc & Hraised).
      exists c. split; [right; exact Hc | exact Hraised].
    + cbn [fst snd]. intros [= ->]. eexists. split; [left; reflexivity | reflexivity].
Qed.

Lemma where_eq_store (rs : list (list pandas.cell)) (v : pandas.cell) :
  pandas.where_eq {| pandas.columns := nb.prediction_columns; pandas.rows := rs |}
                  (pandas.LStr "Store") v
  = Ok {| pandas.columns := nb.prediction_columns;
          pandas.rows :=
            List.filter (fun r => pandas.cell_eqb (nth 2 r pandas.CNaN) v) rs |}.
Proof.
  unfold pandas.where_eq.
  change (pandas.getitem {| pandas.columns := nb.prediction_columns; pandas.rows := rs |}
                         (pandas.LStr "Store"))
    with (Ok (map (fun r => nth 2 r pandas.CNaN) rs)).
  cbn [pandas.columns pandas.rows]. do 2 f_equal.
  induction rs as [| r rs IH]; [reflexivity |].
  cbn [map combine List.filter fst]. destruct (pandas.cell_eqb (nth 2 r pandas.CNaN) v).
  - cbn [map snd]. rewrite IH. reflexivity.
  - exact IH.
Qed.

Lemma plot_all_never_throws (rs : list (list pandas.cell)) :
  never_throws (plot_all {| pandas.columns := nb.prediction_columns; pandas.rows := rs |}).
Proof.
  unfold plot_all, nb.plot_by_brand, nb.plot_over_time, nb.plot_store.
  rewrite where_eq_store.
  change (pandas.getitem {| pandas.columns := nb.prediction_columns; pandas.rows := rs |}
                         (pandas.LStr "Brand"))
    with (Ok (map (fun r => nth 3 r pandas.CNaN) rs)).
  change (pandas.getitem {| pandas.columns := nb.prediction_columns; pandas.rows := rs |}
                         (pandas.LStr "Predictions"))
    with (Ok (map (fun r => nth 1 r pandas.CNaN) rs)).
  cbn [bind call lift].
  repeat (apply never_throws_Vis; intros ?). apply never_throws_Ret.
Qed.

(** X13: once cell 7.2 has named the columns, the plotting cells find every
    column they ask for.  On a dataframe with the columns WeekStarting,
    Predictions, Store, Brand, the lookups df['Brand'], df['Predictions'] and
    df['Store'] raise no KeyError: if the plotting cells fail, the exception
    is the one a call into pandas, seaborn or matplotlib raised. *)
Theorem X13_plotting_cells_find_their_columns {C} (outside : handler (C * FileSystem))
    (s : C * FileSystem) (df : pandas.DataFrame) (ex : exn) :
  pandas.columns df = nb.prediction_columns ->
  outcome (world outside) (plot_all df) s = Raise ex ->
  exists c, In c (trace (world outside) (plot_all df) s) /\
            entry_raised c = Some ex /\
            (entry_library c = lib_pandas \/ entry_library c = lib_seaborn \/
             entry_library c = lib_matplotlib).
Proof.
  destruct df as [cols rs]. cbn [pandas.columns]. intros -> Hex.
  destruct (never_throws_raise _ _ _ _ (plot_all_never_throws rs) Hex) as (c & Hc & Hraised).
  exists c. split; [exact Hc |]. split; [exact Hraised |].
  assert (Hlib : calls_only (fun X e => match library_of e with
                                        | lib_pandas | lib_seaborn | lib_matplotlib => true
                                        | _ => false
                                        end)
                            (plot_all {| pandas.columns := nb.prediction_columns;
                                         pandas.rows := rs |})).
  { unfold plot_all, nb.plot_by_brand, nb.plot_over_time, nb.plot_store. calls_only_tac. }
  pose proof (calls_only_trace _ (world outside) _ s Hlib) as Hall.
  rewrite Forall_forall in Hall. apply list_elem_of_In in Hc. specialize (Hall c Hc).
  destruct c as [X e r]. cbn in *. destruct (library_of e); try discriminate Hall; auto.
Qed.

Lemma X13_witness :
  exists c,
    In c (trace (world (fun X e s =>
                          match e in pyE X return result X * (unit * FileSystem) with
                          | Df_plot _ => (Raise (LibraryError "no numeric data to plot"), s)
                          | e' => Sample.outside [] Sample.download_here _ e' s
                          end))
                (plot_all {| pandas.columns := nb.prediction_columns; pandas.rows := [] |})
                Sample.start) /\
    entry_raised c = Some (LibraryError "no numeric data to plot") /\
    (entry_library c = lib_pandas \/ entry_library c = lib_seaborn \/
     entry_library c = lib_matplotlib).
Proof.
  apply (X13_plotting_cells_find_their_columns
           (fun X e s =>
              match e in pyE X return result X * (unit * FileSystem) with
              | Df_plot _ => (Raise (LibraryError "no numeric data to plot"), s)
              | e' => Sample.outside [] Sample.download_here _ e' s
              end)
           Sample.start
           {| pandas.columns := nb.prediction_columns; pandas.rows := [] |}
           (LibraryError "no numeric data to plot")).
  - reflexivity.
  - reflexivity.
Defined.

(** X14: the last cell plots store 1001 only.  On a dataframe with the four
    columns, the dataframe it groups and sums has the same columns and, in
    the same order, exactly the rows whose Store cell is 'Store1001'; it is
    grouped once. *)
Theorem X14_plot_store_keeps_store_1001 {C} (outside : handler (C * FileSystem))
    (s : C * FileSystem) (df : pandas.DataFrame) :
  pandas.columns df = nb.prediction_columns ->
  groupby_calls (trace (world outside) (nb.plot_store df) s)
  = [ {| pandas.columns := pandas.columns df;
         pandas.rows :=
           List.filter (fun r => pandas.cell_eqb (nth 2 r pandas.CNaN)
                                                 (pandas.CStr "Store1001"))
                       (pandas.rows df) |} ].
Proof.
  destruct df as [cols rs]. cbn [pandas.columns pandas.rows]. intros ->.
  unfold nb.plot_store. rewrite where_eq_store. cbn [bind call lift].
  rewrite trace_Vis.
  destruct (world outside _ _ s) as [[brands | ex] s']; [| reflexivity].
  unfold groupby_calls. cbn [omap list_omap groupby_call]. f_equal.
  apply omap_all_None. eapply Forall_impl.
  - apply (calls_only_trace
             (fun X e => match e with Df_groupby_sum_unstack _ _ _ _ => false | _ => true end)).
    calls_only_tac.
  - intros [X e r]. destruct e; cbn; intros H; try reflexivity; discriminate H.
Qed.

Lemma X14_witness :
  groupby_calls
    (trace Sample.healthy
           (nb.plot_store
              {| pandas.columns := nb.prediction_columns;
                 pandas.rows := [map pandas.CStr ["1992-10-01"; "7"; "Store1001"; "minute.maid"];
                                 map pandas.CStr ["1992-10-01"; "9"; "Store1002"; "tropicana"]] |})
           Sample.start)
  = [ {| pandas.columns := nb.prediction_columns;
         pandas.rows :=
           List.filter (fun r => pandas.cell_eqb (nth 2 r pandas.CNaN)
                                                 (pandas.CStr "Store1001"))
             [map pandas.CStr ["1992-10-01"; "7"; "Store1001"; "minute.maid"];
              map pandas.CStr ["1992-10-01"; "9"; "Store1002"; "tropicana"]] |} ].
Proof.
  apply (X14_plot_store_keeps_store_1001
           (Sample.outside [step_run_handle 1] Sample.download_here) Sample.start
           {| pandas.columns := nb.prediction_columns;
              pandas.rows := [map pandas.CStr ["1992-10-01"; "7"; "Store1001"; "minute.maid"];
                              map pandas.CStr ["1992-10-01"; "9"; "Store1002"; "tropicana"]] |}).
  reflexivity.
Defined.

(** ** The shape of the returned path *)

Lemma split_on_nonempty (c : ascii) (s : string) : split_on c s <> [].
Proof.
  destruct s as [| a s]; cbn [split_on]; [discriminate |].
  destruct (Ascii.eqb a c); [discriminate |].
  destruct (split_on c s); discriminate.
Qed.

Lemma append_nil (b : string) : "" +:+ b = b.
Proof. reflexivity. Qed.

Lemma append_cons (a : ascii) (s b : string) : String a s +:+ b = String a (s +:+ b).
Proof. reflexivity. Qed.

Lemma split_on_last_suffix (c : ascii) (s b : string) :
  split_on c b = [b] ->
  exists w, last (split_on c (s +:+ b)) = Some (w +:+ b).
Proof.
  intros Hb. induction s as [| a s [w IH]].
  - exists "". rewrite append_nil, Hb. reflexivity.
  - rewrite append_cons. cbn [split_on]. destruct (Ascii.eqb a c).
    + exists w. rewrite last_cons, IH. reflexivity.
    + destruct (split_on c (s +:+ b)) as [| w0 ws]; [discriminate IH |].
      destruct ws as [| w1 ws].
      * injection IH as ->. exists (String a w). reflexivity.
      * exists w. rewrite last_cons_cons. rewrite last_cons_cons in IH. exact IH.
Qed.

Lemma append_assoc (a b c : string) : (a +:+ b) +:+ c = a +:+ (b +:+ c).
Proof.
  induction a as [| x a IH]; [reflexivity |].
  rewrite !append_cons, IH. reflexivity.
Qed.

Lemma length_append (a b : string) :
  String.length (a +:+ b) = (String.length a + String.length b)%nat.
Proof.
  induction a as [| x a IH]; [reflexivity |].
  rewrite append_cons. cbn [String.length]. rewrite IH. reflexivity.
Qed.

Lemma lstrip_sep_azureml (t : string) :
  exists t', lstrip_sep (t +:+ "azureml") = t' +:+ "azureml".
Proof.
  induction t as [| a t [t' IH]]; [exists ""; reflexivity |].
  destruct (Ascii.eqb_spec a "/") as [-> | Ha].
  - exists t'. rewrite append_cons. cbn [lstrip_sep]. exact IH.
  - exists (String a t). rewrite append_cons.
    destruct a as [[] [] [] [] [] [] [] []]; try reflexivity. contradiction Ha. reflexivity.
Qed.

Lemma join_azureml (dir : string) :
  exists t, os.path.join dir "azureml" = t +:+ "azureml".
Proof.
  unfold os.path.join. cbn [startswith_sep].
  destruct ((String.length dir =? 0)%nat || endswith_sep dir).
  - exists dir. reflexivity.
  - exists (dir +:+ "/"). rewrite append_assoc. reflexivity.
Qed.

Lemma keep_part_azureml (w : string) : pathlib.keep_part (w +:+ "azureml") = true.
Proof.
  unfold pathlib.keep_part. destruct w as [| a [| b w]]; [reflexivity | |];
    rewrite ?append_cons, ?append_nil; cbn [String.eqb];
    destruct (Ascii.eqb a "."); reflexivity.
Qed.

(** [Path(os.path.join(dir, 'azureml'))] has a last component. *)
Lemma azureml_parts (dir : string) :
  exists w, In (w +:+ "azureml") (pathlib.parts (pathlib.of_string (os.path.join dir "azureml"))).
Proof.
  destruct (join_azureml dir) as [t ->].
  assert (Hrel : exists r t', pathlib.splitroot (t +:+ "azureml") = (r, t' +:+ "azureml")).
  { unfold pathlib.splitroot. destruct (startswith_sep (t +:+ "azureml")).
    - destruct (lstrip_sep_azureml t) as [t' ->].
      destruct (_ =? 2)%nat; eauto.
    - eauto. }
  destruct Hrel as (r & t' & Hrel). unfold pathlib.of_string. rewrite Hrel.
  cbn [pathlib.parts].
  destruct (split_on_last_suffix "/" t' "azureml" eq_refl) as [w Hw].
  exists w. apply filter_In. split; [| apply keep_part_azureml].
  apply list_elem_of_In. apply last_Some_elem_of. exact Hw.
Qed.

Lemma str_join_snoc (sep : string) (l : list string) (n : string) :
  l <> [] -> str_join sep (l ++ [n]) = str_join sep l +:+ sep +:+ n.
Proof.
  induction l as [| x [| y l] IH]; intros Hl; [contradiction | reflexivity |].
  change (str_join sep ((x :: y :: l) ++ [n]))
    with (x +:+ sep +:+ str_join sep ((y :: l) ++ [n])).
  rewrite IH by discriminate.
  change (str_join sep (x :: y :: l)) with (x +:+ sep +:+ str_join sep (y :: l)).
  rewrite !append_assoc. reflexivity.
Qed.

Lemma endswith_sep_append (a b : string) :
  b <> "" -> endswith_sep (a +:+ b) = endswith_sep b.
Proof.
  intros Hb. induction a as [| x a IH]; [reflexivity |].
  rewrite append_cons. cbn [endswith_sep]. rewrite IH.
  destruct (a +:+ b) eqn:Hab; [| reflexivity].
  exfalso. apply Hb. destruct a; [exact Hab | discriminate Hab].
Qed.

Lemma nonempty_length (a : string) : a <> "" -> (String.length a =? 0)%nat = false.
Proof. destruct a; [contradiction | reflexivity]. Qed.

(** An entry of [dir/azureml] is named by the directory's canonical path, a
    slash and the name of the entry. *)
Lemma child_to_string (dir n : string) :
  pathlib.to_string (pathlib.child (pathlib.of_string (os.path.join dir "azureml")) n)
  = canon (os.path.join dir "azureml") +:+ "/" +:+ n.
Proof.
  unfold canon. destruct (azureml_parts dir) as [w Hw].
  set (P := pathlib.of_string (os.path.join dir "azureml")) in *.
  assert (Hparts : pathlib.parts P <> []) by (intros H; rewrite H in Hw; contradiction).
  assert (Hjoin : str_join "/" (pathlib.parts P) <> "").
  { clear Hparts. induction (pathlib.parts P) as [| x [| y l] IH]; [contradiction | |].
    - destruct Hw as [Hx | []]. subst x. cbn [str_join].
      destruct w; [rewrite append_nil | rewrite append_cons]; discriminate.
    - change (str_join "/" (x :: y :: l)) with (x +:+ "/" +:+ str_join "/" (y :: l)).
      destruct x; [rewrite append_nil | rewrite append_cons]; discriminate. }
  unfold pathlib.to_string, pathlib.child. cbn [pathlib.root pathlib.parts].
  rewrite (str_join_snoc _ _ _ Hparts).
  rewrite !nonempty_length.
  - rewrite append_assoc. reflexivity.
  - intros H. apply (f_equal String.length) in H. rewrite length_append in H.
    destruct (str_join "/" (pathlib.parts P)); [contradiction | cbn in H; lia].
  - intros H. apply (f_equal String.length) in H. rewrite !length_append in H.
    destruct (str_join "/" (pathlib.parts P)); [contradiction | cbn in H; lia].
Qed.

(** X15: the path [download_predictions] returns is spelled from the
    canonical form of target_dir/azureml (as pathlib writes it: no doubled or
    trailing slash, no '.' component), the name of the selected entry and
    'forecasting_output', joined by single slashes, for entries whose names
    are not empty and do not end with a slash. *)
Theorem X15_returned_path_is_canonical {C} (outside : handler (C * FileSystem))
    (s : C * FileSystem) (run : PipelineRun) (dir p : string) :
  outcome (world outside) (nb.download_predictions run (Some dir)) s = Ok p ->
  (forall names,
      listdir (snd (final (world outside) (nb.download_predictions run (Some dir)) s))
              (os.path.join dir "azureml") = Ok names ->
      Forall (fun n => n <> "" /\ endswith_sep n = false) names) ->
  exists names latest,
    listdir (snd (final (world outside) (nb.download_predictions run (Some dir)) s))
            (os.path.join dir "azureml") = Ok names /\
    In latest names /\
    p = canon (os.path.join dir "azureml") +:+ "/" +:+ latest +:+ "/forecasting_output".
Proof.
  intros Hp Hproper.
  destruct (download_predictions_Ok outside s run (Some dir) p Hp)
    as (dir' & port_data & s3 & [= <-] & Hdl & Hout & Hfin).
  destruct (latest_output_Ok _ _ _ Hout) as (names & e & Hnames & Hne & _ & Hlast & ->).
  rewrite Hfin in *. specialize (Hproper names Hnames).
  apply last_Some_elem_of in Hlast. rewrite (sorted_Permutation (mtime_of (snd s3))) in Hlast.
  apply list_elem_of_In in Hlast. unfold entries_of in Hlast. apply in_map_iff in Hlast.
  destruct Hlast as (latest & <- & Hin).
  exists names, latest. split; [exact Hnames |]. split; [exact Hin |].
  rewrite Forall_forall in Hproper. apply list_elem_of_In in Hin.
  destruct (Hproper latest Hin) as [Hn Hend].
  rewrite child_to_string. unfold os.path.join at 1. cbn [startswith_sep].
  rewrite nonempty_length.
  - rewrite <- append_assoc. rewrite endswith_sep_append by exact Hn.
    rewrite Hend. cbn [orb]. rewrite !append_assoc. reflexivity.
  - intros H. apply (f_equal String.length) in H. rewrite !length_append in H.
    cbn in H. lia.
Qed.

Lemma X15_witness :
  exists names latest,
    listdir (snd (final Sample.healthy
                        (nb.download_predictions (run_handle 1) (Some "./output//"))
                        Sample.start))
            (os.path.join "./output//" "azureml") = Ok names /\
    In latest names /\
    "output/azureml/run-0001/forecasting_output"
    = canon (os.path.join "./output//" "azureml") +:+ "/" +:+ latest +:+ "/forecasting_output".
Proof.
  apply (X15_returned_path_is_canonical
           (Sample.outside [step_run_handle 1] Sample.download_here)
           Sample.start (run_handle 1) "./output//").
  - vm_compute. reflexivity.
  - intros names Hnames. vm_compute in Hnames. injection Hnames as <-.
    repeat constructor. discriminate.
Defined.

(** ** A run that completes *)

Lemma not_sdk_not_download (c : entry) : entry_sat not_sdk c = true -> download c = None.
Proof. destruct c as [X e r]. destruct e; simpl; intros H; try reflexivity; discriminate H. Qed.

Lemma view_results_completed {C} (outside : handler (C * FileSystem))
    (s : C * FileSystem) (run : PipelineRun) :
  is_ok (outcome (world outside) (nb.view_results run) s) = true ->
  sdk_calls (trace (world outside) (nb.view_results run) s)
    = [find_step_run; get_output_data; download_call] /\
  exists port_data,
    downloads (trace (world outside) (nb.view_results run) s) = [(port_data, Some "output")].
Proof.
  unfold nb.view_results. rewrite outcome_bind, trace_bind.
  destruct (outcome (world outside) (nb.download_predictions run (Some "output")) s)
    as [file_path | ex] eqn:Hdp; [| discriminate].
  intros _.
  destruct (download_predictions_Ok outside s run _ _ Hdp)
    as (dir & port_data & s3 & [= <-] & Hdl & _ & _).
  destruct (exec_download_predictions outside s run "output" port_data s3 Hdl)
    as (stitch_run & others & tr & Hexec & Htr).
  assert (Hrest : Forall (fun c => entry_sat not_sdk c = true)
                    (trace (world outside)
                       (df <- nb.read_predictions file_path ;;
                        nb.plot_by_brand df ;;; nb.plot_over_time df ;;; nb.plot_store df)
                       (final (world outside)
                              (nb.download_predictions run (Some "output")) s))).
  { apply calls_only_trace.
    unfold nb.read_predictions, nb.plot_by_brand, nb.plot_over_time, nb.plot_store.
    calls_only_tac. }
  unfold trace at 1 3. rewrite Hexec. cbn [fst snd].
  unfold sdk_calls, downloads. rewrite !omap_app.
  cbn [omap list_omap sdk_call_of download].
  rewrite (omap_all_None _ tr)
    by (eapply Forall_impl; [exact Htr | apply local_call_not_sdk]).
  rewrite (omap_all_None download tr)
    by (eapply Forall_impl; [exact Htr | apply local_call_not_download]).
  rewrite (omap_all_None _ (trace _ _ _))
    by (eapply Forall_impl; [exact Hrest | apply not_sdk_entry]).
  rewrite (omap_all_None download (trace _ _ _))
    by (eapply Forall_impl; [exact Hrest | apply not_sdk_not_download]).
  split; [reflexivity | exists port_data; reflexivity].
Qed.

(** X16: a run of the notebook that completes has made each of the eight
    calls to the platform exactly once, in the order from_config,
    get_default_datastore, get_by_name, register_azure_blob_container,
    submit, find_step_run, get_output_data, download, and its one download
    went into the directory 'output'. *)
Theorem X16_completed_run_makes_every_platform_call_once {C}
    (outside : handler (C * FileSystem)) (s : C * FileSystem) :
  is_ok (outcome (world outside) nb.notebook s) = true ->
  sdk_calls (trace (world outside) nb.notebook s) = sdk_call_sequence /\
  exists port_data,
    downloads (trace (world outside) nb.notebook s) = [(port_data, Some "output")].
Proof.
  destruct (notebook_run outside s)
    as (r & tr & Hrun & [(ex & -> & -> & ->) | (run & s' & -> & -> & ->)]);
    [discriminate |].
  intros Hok. destruct (view_results_completed outside s' run Hok) as [Hsdk [port_data Hdl]].
  unfold sdk_calls, downloads in *. rewrite !omap_app, Hsdk, Hdl.
  inversion Hrun; subst. split; [reflexivity | exists port_data; reflexivity].
Qed.

Lemma X16_witness :
  sdk_calls (trace Sample.healthy nb.notebook Sample.start) = sdk_call_sequence /\
  exists port_data,
    downloads (trace Sample.healthy nb.notebook Sample.start) = [(port_data, Some "output")].
Proof.
  apply (X16_completed_run_makes_every_platform_call_once
           (Sample.outside [step_run_handle 1] Sample.download_here) Sample.start).
  reflexivity.
Defined.
